(** * db-migrate SQL drivers: a shallow embedding and its verified properties

    The development follows [lib/driver/pg.js] (the PostgreSQL driver) and the
    MySQL driver of the same directory.  JavaScript values, the few string
    primitives the drivers call, the drivers' pure builders and finally the
    callback-driven operations are embedded in that order; the theorems come
    last. *)

From Stdlib Require Import ZArith String Ascii List Bool Lia Permutation.
From Stdlib Require Import DecimalString DecimalPos.
From stdpp Require Import base list.

Import ListNotations.
Set Warnings "-register-all".
Local Open Scope string_scope.
Local Open Scope Z_scope.

(* ===================================================================== *)
(** ** JavaScript values *)
(* ===================================================================== *)

(** Locations of the mutable objects (an options object, a columns mapping)
    that a caller shares with the driver. *)
Definition loc := nat.

(** The values the drivers handle.  [JNum z] is the Number of integral
    value [z]: [z] itself within the 53 bits of a Number, the nearest Number
    beyond them, and an infinity from 2^1024 - 2^970 on.  [JObj] is an object read but never written by
    the drivers (a column specification, a query result), so it is kept by
    value, its properties in insertion order; an object the drivers write to
    lives in the heap and is reached through [JRef].  [JFun] is a function
    supplied by the caller, known only by its identity; [JErr] is an [Error]
    with its message. *)
Inductive JsVal : Type :=
  | JUndef
  | JNull
  | JBool (b : bool)
  | JNum (z : Z)
  | JStr (s : string)
  | JFun (id : nat)
  | JErr (msg : string)
  | JObj (props : list (string * JsVal))
  | JArr (items : list JsVal)
  | JRef (l : loc).

Abbreviation Obj := (list (string * JsVal)).

(** Property read [o.k] on an object given by its properties: the value of the
    first property of that name, [undefined] when there is none. *)
Fixpoint get (k : string) (o : Obj) : JsVal :=
  match o with
  | [] => JUndef
  | (k', v) :: o' => if String.eqb k k' then v else get k o'
  end.

(** [delete o.k]. *)
Fixpoint del (k : string) (o : Obj) : Obj :=
  match o with
  | [] => []
  | (k', v) :: o' => if String.eqb k k' then del k o' else (k', v) :: del k o'
  end.

(** Assignment [o.k = v]: an existing property keeps its place in the
    enumeration order, a new one goes last. *)
Fixpoint assign (k : string) (v : JsVal) (o : Obj) : Obj :=
  match o with
  | [] => [(k, v)]
  | (k', v') :: o' =>
      if String.eqb k k' then (k', v) :: o' else (k', v') :: assign k v o'
  end.

(** ToBoolean. *)
Definition truthy (v : JsVal) : bool :=
  match v with
  | JUndef | JNull => false
  | JBool b => b
  | JNum z => negb (z =? 0)
  | JStr s => negb (String.eqb s "")
  | JFun _ | JErr _ | JObj _ | JArr _ | JRef _ => true
  end.

(** The [typeof] operator. *)
Definition typeof (v : JsVal) : string :=
  match v with
  | JUndef => "undefined"
  | JBool _ => "boolean"
  | JNum _ => "number"
  | JStr _ => "string"
  | JFun _ => "function"
  | JNull | JErr _ | JObj _ | JArr _ | JRef _ => "object"
  end.

(** [v === s] for a string constant [s]. *)
Definition strict_eq_str (v : JsVal) (s : string) : bool :=
  match v with
  | JStr t => String.eqb t s
  | _ => false
  end.

(** [v === true] and [v === false]. *)
Definition strict_eq_bool (v : JsVal) (b : bool) : bool :=
  match v with
  | JBool c => Bool.eqb c b
  | _ => false
  end.

Definition is_undefined (v : JsVal) : bool :=
  match v with
  | JUndef => true
  | _ => false
  end.

(* --------------------------------------------------------------------- *)
(** *** Strings *)

(** The decimal digits of an integer. *)
Definition string_of_Z (z : Z) : string :=
  NilZero.string_of_int (Z.to_int z).

(** The integers every one of which is a Number: those below 2^53 in
    magnitude. *)
Definition safe_integer (z : Z) : bool := Z.abs z <? 9007199254740992.

(** The integers that are beyond every finite Number. *)
Definition is_infinite (z : Z) : bool := 2 ^ 1024 - 2 ^ 970 <=? Z.abs z.

(** The Number nearest to an integer: the integer rounded to 53 significant
    bits, a tie going to the even mantissa.  An integer that stands for an
    infinity is left as it is. *)
Definition to_double (z : Z) : Z :=
  if safe_integer z || is_infinite z then z
  else
    let a := Z.abs z in
    let e := Z.log2 a - 52 in
    let q := Z.shiftr a e in
    let r := a - Z.shiftl q e in
    let half := Z.shiftl 1 (e - 1) in
    let m := if r <? half then q
             else if half <? r then q + 1
             else if Z.even q then q else q + 1 in
    Z.sgn z * Z.shiftl m e.

Definition decimal_length (a : Z) : Z :=
  Z.of_nat (String.length (string_of_Z a)).

(** Number::toString, steps 5: the decimal with the fewest significant
    digits that still reads back as the Number [x], the nearest to [x] among
    those, an even last digit on a tie.  The search goes by the number [k] of
    significant digits; with as many as [x] has, [x] itself is found. *)
Fixpoint shortest_decimal (fuel : nat) (k : Z) (x : Z) : Z :=
  match fuel with
  | O => x
  | S fuel' =>
      let p := 10 ^ (decimal_length x - k) in
      let lo := (x / p) * p in
      let hi := lo + p in
      let ok_lo := to_double lo =? x in
      let ok_hi := to_double hi =? x in
      if ok_lo && ok_hi then
        (if x - lo <? hi - x then lo
         else if hi - x <? x - lo then hi
         else if Z.even (x / p) then lo else hi)
      else if ok_lo then lo
      else if ok_hi then hi
      else shortest_decimal fuel' (k + 1) x
  end.

Fixpoint strip_zeros (s : string) : string :=
  match s with
  | String c s' =>
      let t := strip_zeros s' in
      if Ascii.eqb c "0" && String.eqb t "" then "" else String c t
  | EmptyString => EmptyString
  end.

(** The exponent form of a decimal given by its digits: the first digit,
    the others after a point up to the last that is not 0, and the
    exponent. *)
Definition exponent_form (digits : string) : string :=
  match digits with
  | String c rest =>
      let fraction := strip_zeros rest in
      String c (if String.eqb fraction "" then "" else "." ++ fraction)
      ++ "e+" ++ string_of_Z (Z.of_nat (String.length rest))
  | EmptyString => EmptyString
  end.

(** Number::toString in radix 10 on the integral Numbers: an integer
    within 53 bits prints its digits; a larger one prints the shortest
    decimal that reads back as it, in plain digits below 10^21 and in
    exponent form from there on. *)
Definition number_to_string (z : Z) : string :=
  if safe_integer z then string_of_Z z
  else if is_infinite z then (if z <? 0 then "-Infinity" else "Infinity")
  else
    let x := to_double (Z.abs z) in
    let y := shortest_decimal (Z.to_nat (decimal_length x)) 1 x in
    let body := if y <? 10 ^ 21 then string_of_Z y
                else exponent_form (string_of_Z y) in
    if z <? 0 then "-" ++ body else body.

(** [Array.prototype.join] on strings. *)
Fixpoint join (sep : string) (l : list string) : string :=
  match l with
  | [] => ""
  | [x] => x
  | x :: l' => x ++ sep ++ join sep l'
  end.

(** ToString.  An element of an array that is [undefined] or [null] prints
    as the empty string, as [join] has it.  The text of a function is its
    source, of which only the leading keyword is kept. *)
Fixpoint to_string (v : JsVal) : string :=
  match v with
  | JUndef => "undefined"
  | JNull => "null"
  | JBool true => "true"
  | JBool false => "false"
  | JNum z => number_to_string z
  | JStr s => s
  | JFun _ => "function"
  | JErr msg => "Error: " ++ msg
  | JObj _ | JRef _ => "[object Object]"
  | JArr items =>
      join "," (List.map (fun x => match x with
                                   | JUndef | JNull => ""
                                   | _ => to_string x
                                   end) items)
  end.

(** An element of an array as [join] prints it. *)
Definition join_item (v : JsVal) : string :=
  match v with
  | JUndef | JNull => ""
  | _ => to_string v
  end.

(** [arr.join(sep)] on an array of values. *)
Definition join_vals (sep : string) (arr : list JsVal) : string :=
  join sep (List.map join_item arr).

(** [arr.push(x)]. *)
Definition push {A} (x : A) (arr : list A) : list A := arr ++ [x].

Definition is_digit (c : ascii) : bool :=
  let n := nat_of_ascii c in (48 <=? n)%nat && (n <=? 57)%nat.

Definition digit_val (c : ascii) : Z := Z.of_nat (nat_of_ascii c) - 48.

(** White space that [parseInt] skips, within the ASCII range. *)
Definition is_space (c : ascii) : bool :=
  let n := nat_of_ascii c in
  (n =? 32)%nat || ((9 <=? n)%nat && (n <=? 13)%nat).

Fixpoint skip_spaces (s : string) : string :=
  match s with
  | String c s' => if is_space c then skip_spaces s' else s
  | EmptyString => s
  end.

(** The longest run of decimal digits at the head of [s], read as a number
    on top of the accumulator; [None] when the run is empty. *)
Fixpoint read_digits (acc : option Z) (s : string) : option Z :=
  match s with
  | String c s' =>
      if is_digit c
      then read_digits (Some (10 * match acc with Some a => a | None => 0 end
                              + digit_val c)) s'
      else acc
  | EmptyString => acc
  end.

(** [parseInt(v, 10)]: the digits at the head of the string of [v], read
    as a Number; [None] is [NaN]. *)
Definition parseInt10 (v : JsVal) : option Z :=
  option_map to_double
    match skip_spaces (to_string v) with
    | String "-" s' => option_map Z.opp (read_digits None s')
    | String "+" s' => read_digits None s'
    | s => read_digits None s
    end.

(** [n || d] for a number [n] that may be [NaN]. *)
Definition num_or (n : option Z) (d : Z) : Z :=
  match n with
  | Some z => if z =? 0 then d else z
  | None => d
  end.

(* ===================================================================== *)
(** ** The data types of [lib/data_type] *)
(* ===================================================================== *)

(** Modelled from the spec: the table of type constants of [lib/data_type],
    which the drivers import as [type], is not among the sources.  The
    constants are the names of the specification's enumeration, pairwise
    distinct strings. *)
Module data_type.
Definition STRING := "STRING".
Definition TEXT := "TEXT".
Definition INTEGER := "INTEGER".
Definition DATE_TIME := "DATE_TIME".
Definition BLOB := "BLOB".
Definition BOOLEAN := "BOOLEAN".
End data_type.

(** [s.replace(/\[|\]/g, r)]. *)
Fixpoint replace_brackets (r : string) (s : string) : string :=
  match s with
  | String c s' =>
      (if Ascii.eqb c "[" || Ascii.eqb c "]"
       then r else String c EmptyString) ++ replace_brackets r s'
  | EmptyString => EmptyString
  end.

(** [s.split(c)] for a one-character separator. *)
Fixpoint split (c : ascii) (s : string) : list string :=
  match s with
  | EmptyString => [EmptyString]
  | String a s' =>
      if Ascii.eqb a c then EmptyString :: split c s'
      else match split c s' with
           | x :: xs => String a x :: xs
           | [] => [String a EmptyString]
           end
  end.

(** [s.replace(c, r)] for a one-character pattern [c] given as a string:
    only the first occurrence is replaced. *)
Fixpoint replace_first (c : ascii) (r : string) (s : string) : string :=
  match s with
  | String a s' =>
      if Ascii.eqb a c then r ++ s' else String a (replace_first c r s')
  | EmptyString => EmptyString
  end.

(** The digits at the head of [s], and what follows them. *)
Fixpoint take_digits (s : string) : string * string :=
  match s with
  | String c s' =>
      if is_digit c
      then let '(d, r) := take_digits s' in (String c d, r)
      else (EmptyString, s)
  | EmptyString => (EmptyString, EmptyString)
  end.

(** A match of [/\d+\.\d+\.\d+/] at the head of [s].  A run of digits is
    taken whole: a shorter run would be followed by a digit, never by the
    dot. *)
Definition version_here (s : string) : option string :=
  match take_digits s with
  | (String a d1, String "." r1) =>
      match take_digits r1 with
      | (String b d2, String "." r2) =>
          match take_digits r2 with
          | (String c d3, _) =>
              Some (String a d1 ++ "." ++ String b d2 ++ "." ++ String c d3)
          | _ => None
          end
      | _ => None
      end
  | _ => None
  end.

(** [s.match(/\d+\.\d+\.\d+/)]: the leftmost match, [None] for [null]. *)
Fixpoint version_match (s : string) : option string :=
  match version_here s with
  | Some m => Some m
  | None =>
      match s with
      | String _ s' => version_match s'
      | EmptyString => None
      end
  end.

(** ToNumber on the integral numbers; [None] is [NaN].  A string is a
    number when, white space apart, it is empty or an optional sign and
    digits. *)
Definition number_of_string (s : string) : option Z :=
  match skip_spaces s with
  | EmptyString => Some 0
  | t =>
      let body := match t with
                  | String "-" u | String "+" u => u
                  | u => u
                  end in
      match take_digits body with
      | (String _ _, rest) =>
          match skip_spaces rest with
          | EmptyString => parseInt10 (JStr t)
          | _ => None
          end
      | _ => None
      end
  end.

Definition to_number (v : JsVal) : option Z :=
  match v with
  | JNum z => Some z
  | JBool b => Some (if b then 1 else 0)
  | JNull => Some 0
  | JStr s => number_of_string s
  | JArr _ => number_of_string (to_string v)
  | JUndef | JFun _ | JErr _ | JObj _ | JRef _ => None
  end.

(** [v > n] and [v < n] for a number [n]; a comparison with [NaN] is
    false. *)
Definition gt_num (v : JsVal) (n : Z) : bool :=
  match to_number v with
  | Some z => z >? n
  | None => false
  end.

Definition lt_num (v : JsVal) (n : Z) : bool :=
  match to_number v with
  | Some z => z <? n
  | None => false
  end.

(* ===================================================================== *)
(** ** Completions, [util.format] and the objects' properties *)
(* ===================================================================== *)

(** How a call ends: with a value, or with an exception thrown to the
    caller. *)
Inductive Completion (A : Type) : Type :=
  | Returned (a : A)
  | Threw (e : JsVal).
Arguments Returned {A} a.
Arguments Threw {A} e.

Definition cbind {A B} (c : Completion A) (f : A -> Completion B)
  : Completion B :=
  match c with
  | Returned a => f a
  | Threw e => Threw e
  end.

Notation "'let!' x ':=' c 'in' k" := (cbind c (fun x => k))
  (at level 10, x name, c at level 200, k at level 200, only parsing).

Definition TypeError (msg : string) : JsVal := JErr ("TypeError: " ++ msg).

(** The double quote, and templates written with a backquote in its place
    (no template of the drivers holds a backquote). *)
Definition dq : string := String (ascii_of_nat 34) EmptyString.

Fixpoint q (s : string) : string :=
  match s with
  | String c s' =>
      String (if Ascii.eqb c "`" then ascii_of_nat 34 else c) (q s')
  | EmptyString => EmptyString
  end.

(** [util.format(f, args...)] for the templates of the drivers, which hold
    no directive but [%s]: every [%s] takes the next argument as a string, a
    [%s] left without argument stays, and the arguments left over follow,
    each after a space. *)
Fixpoint util_format (f : string) (args : list JsVal) : string :=
  match f with
  | String "%" (String "s" rest) =>
      match args with
      | a :: args' => to_string a ++ util_format rest args'
      | [] => "%s" ++ util_format rest []
      end
  | String c rest => String c (util_format rest args)
  | EmptyString => String.concat "" (List.map (fun a => " " ++ to_string a) args)
  end.

Abbreviation Heap := (list Obj).

(** The index properties of an array, from index [i] on. *)
Fixpoint indexed (i : nat) (items : list JsVal) : Obj :=
  match items with
  | [] => []
  | x :: items' => (string_of_Z (Z.of_nat i), x) :: indexed (S i) items'
  end.

Definition chars (s : string) : list JsVal :=
  List.map (fun c => JStr (String c EmptyString)) (list_ascii_of_string s).

(** The properties a value answers to when the drivers read it: those of
    the object itself, held by value or in the heap; an array and a string
    have their elements and their [length]; no property of the prototypes is
    read as data by the drivers.  A property read on [undefined] or [null]
    throws. *)
Definition props_of (h : Heap) (v : JsVal) : Completion Obj :=
  match v with
  | JUndef => Threw (TypeError "Cannot read property of undefined")
  | JNull => Threw (TypeError "Cannot read property of null")
  | JObj o => Returned o
  | JRef l => Returned (default [] (h !! l))
  | JStr s =>
      Returned (indexed 0 (chars s)
                ++ [("length", JNum (Z.of_nat (String.length s)))])%list
  | JArr items =>
      Returned (indexed 0 items
                ++ [("length", JNum (Z.of_nat (List.length items)))])%list
  | JErr msg => Returned [("message", JStr msg)]
  | JBool _ | JNum _ | JFun _ => Returned []
  end.

(** The property read [v.k]. *)
Definition prop (h : Heap) (v : JsVal) (k : string) : Completion JsVal :=
  let! o := props_of h v in Returned (get k o).

(** The [options] argument of the builders at its first property read. *)
Definition read_options (options : option Obj) : Completion Obj :=
  match options with
  | Some o => Returned o
  | None => Threw (TypeError "Cannot read property of undefined")
  end.

(* ===================================================================== *)
(** ** The world of a driver: heap, connection, callbacks, ticks *)
(* ===================================================================== *)

(** What an operation can touch.  [heap] holds the objects shared with the
    caller; [dryRun] is [global.dryRun]; [db] is the state behind the
    connection, of a type [D] left to the connection; [sent] lists, in order,
    the statements handed to [connection.query] with their bound parameters;
    [logged] lists the calls of [log.sql]; [calls] lists, in order, the
    invocations of the caller's functions with their arguments; [ticks] is
    the queue of [process.nextTick]: a function and the arguments it is to
    be called with on a later tick. *)
Record World (D : Type) : Type := mkWorld {
  heap : Heap;
  dryRun : JsVal;
  db : D;
  sent : list (string * list JsVal);
  logged : list (string * list JsVal);
  calls : list (nat * list JsVal);
  ticks : list (JsVal * list JsVal)
}.
Arguments mkWorld {D}.
Arguments heap {D}.
Arguments dryRun {D}.
Arguments db {D}.
Arguments sent {D}.
Arguments logged {D}.
Arguments calls {D}.
Arguments ticks {D}.

(** A computation of the driver: from a world to a completion and the world
    it leaves. *)
Definition M (D A : Type) : Type := World D -> Completion A * World D.

Definition ret {D A} (a : A) : M D A := fun w => (Returned a, w).

Definition throw {D A} (e : JsVal) : M D A := fun w => (Threw e, w).

Definition bind {D A B} (m : M D A) (f : A -> M D B) : M D B :=
  fun w =>
    match m w with
    | (Returned a, w') => f a w'
    | (Threw e, w') => (Threw e, w')
    end.

Notation "'do!' x ':=' c 'in' k" := (bind c (fun x => k))
  (at level 10, x name, c at level 200, k at level 200, only parsing).

(** A pure step of the builders inside a computation. *)
Definition lift {D A} (c : Completion A) : M D A := fun w => (c, w).

(** A function handed over as a callback: a value of the caller, or a
    function of the driver itself (a continuation such as [setUnique]). *)
Inductive Callback (D : Type) : Type :=
  | CbVal (f : JsVal)
  | CbFun (k : list JsVal -> M D unit).
Arguments CbVal {D} f.
Arguments CbFun {D} k.

(** The [i]-th argument of a call, [undefined] when it was not passed. *)
Definition arg (i : nat) (args : list JsVal) : JsVal := nth i args JUndef.

Section Runtime.

Context {D : Type}.

(** The connection: what [connection.query] does to the state behind it for
    a statement and its bound parameters, and the error and result it hands
    to the callback.  The database client is outside the drivers. *)
Variable connection_query : D -> string -> list JsVal -> D * (JsVal * JsVal).

(** Calling a function of the caller records the call; the function itself
    is outside the drivers.  Calling what is no function throws. *)
Definition call (cb : Callback D) (args : list JsVal) : M D unit :=
  match cb with
  | CbFun k => k args
  | CbVal (JFun id) =>
      fun w => (Returned tt,
                mkWorld (heap w) (dryRun w) (db w) (sent w) (logged w)
                        (push (id, args) (calls w)) (ticks w))
  | CbVal _ => throw (TypeError "callback is not a function")
  end.

(** [log.sql(sql, ...)]. *)
Definition log_sql (sql : string) (rest : list JsVal) : M D unit :=
  fun w => (Returned tt,
            mkWorld (heap w) (dryRun w) (db w) (sent w)
                    (push (sql, rest) (logged w)) (calls w) (ticks w)).

(** [this.connection.query(sql, ..., callback)]: the statement reaches the
    connection, which answers through the callback.  The answer comes once
    the client has it; the operations of a driver never overlap, so the
    callback is run in line. *)
Definition query (sql : string) (rest : list JsVal) (callback : Callback D)
  : M D unit :=
  fun w =>
    let '(d, (err, result)) := connection_query (db w) sql rest in
    call callback [err; result]
         (mkWorld (heap w) (dryRun w) d (push (sql, rest) (sent w))
                  (logged w) (calls w) (ticks w)).

(** [process.nextTick(f)] for an [f] that calls [cb] with [args]. *)
Definition nextTick (cb : JsVal) (args : list JsVal) : M D unit :=
  fun w => (Returned tt,
            mkWorld (heap w) (dryRun w) (db w) (sent w) (logged w)
                    (calls w) (push (cb, args) (ticks w))).

(** The event loop runs the oldest queued tick, if any. *)
Definition run_tick : M D unit :=
  fun w =>
    match ticks w with
    | [] => (Returned tt, w)
    | (cb, args) :: rest =>
        call (CbVal cb) args
             (mkWorld (heap w) (dryRun w) (db w) (sent w) (logged w)
                      (calls w) rest)
    end.

Definition get_dryRun : M D JsVal := fun w => (Returned (dryRun w), w).

Definition get_heap : M D Heap := fun w => (Returned (heap w), w).

(** A new object in the heap, and its location. *)
Definition alloc (o : Obj) : M D loc :=
  fun w => (Returned (List.length (heap w)),
            mkWorld (heap w ++ [o])%list (dryRun w) (db w) (sent w)
                    (logged w) (calls w) (ticks w)).

(** The object at a location. *)
Definition deref (l : loc) : M D Obj :=
  fun w => (Returned (default [] (heap w !! l)), w).

(** The object at a location replaced. *)
Definition store (l : loc) (o : Obj) : M D unit :=
  fun w => (Returned tt,
            mkWorld (<[l := o]> (heap w)) (dryRun w) (db w) (sent w)
                    (logged w) (calls w) (ticks w)).

(** A loop over [l] that carries an accumulator. *)
Fixpoint for_each {A B} (l : list A) (acc : B) (body : B -> A -> M D B)
  : M D B :=
  match l with
  | [] => ret acc
  | x :: l' => do! acc := body acc x in for_each l' acc body
  end.

End Runtime.

(* ===================================================================== *)
(** ** Arrays, and the upper case of a string *)
(* ===================================================================== *)

(** [if (!Array.isArray(v)) v = [v]]: an array as it is, any other value as
    the array of that value alone. *)
Definition as_array (v : JsVal) : list JsVal :=
  match v with
  | JArr items => items
  | _ => [v]
  end.

(** [arr.map(c => '"' + c + '"')], as the loops of [addIndex] and
    [addForeignKey] build it. *)
Definition quoted (columns : list JsVal) : list string :=
  List.map (fun c => dq ++ to_string c ++ dq) columns.

Definition upper_char (c : ascii) : ascii :=
  let n := nat_of_ascii c in
  if (97 <=? n)%nat && (n <=? 122)%nat then ascii_of_nat (n - 32) else c.

(** [s.toUpperCase()], within the ASCII range. *)
Fixpoint to_upper (s : string) : string :=
  match s with
  | String c s' => String (upper_char c) (to_upper s')
  | EmptyString => EmptyString
  end.

(** [' ON UPDATE ' + v.toUpperCase()] and the like, for the value [v] of an
    action that was found truthy: of the values here only a string has the
    method. *)
Definition action_clause (keyword : string) (v : JsVal) : Completion string :=
  if truthy v then
    match v with
    | JStr s => Returned (keyword ++ to_upper s)
    | _ => Threw (TypeError "toUpperCase is not a function")
    end
  else Returned "".

(* ===================================================================== *)
(** ** The MySQL driver *)
(* ===================================================================== *)

Module Mysql.
Section Driver.

Context {D : Type}.

(** [this.connection.query] of the driver's connection. *)
Variable connection_query : D -> string -> list JsVal -> D * (JsVal * JsVal).

(** [Base.mapDataType], reached through [this._super(spec)]: the shared base
    driver is not among the sources and is taken as a parameter. *)
Variable Base_mapDataType : Obj -> Completion string.

(** [parseInt(length, 10) || 1000]. *)
Definition effective_length (length : JsVal) : Z :=
  num_or (parseInt10 length) 1000.

(** [mapDataType(spec)]. *)
Definition mapDataType (spec : Obj) : Completion string :=
  let t := get "type" spec in
  if strict_eq_str t data_type.TEXT then
    let len := effective_length (get "length" spec) in
    if len >? 16777216 then Returned "LONGTEXT"
    else if len >? 65536 then Returned "MEDIUMTEXT"
    else if len >? 256 then Returned "TEXT"
    else Returned "TINYTEXT"
  else if strict_eq_str t data_type.DATE_TIME then Returned "DATETIME"
  else if strict_eq_str t data_type.BLOB then
    let len := effective_length (get "length" spec) in
    if len >? 16777216 then Returned "LONGBLOB"
    else if len >? 65536 then Returned "MEDIUMBLOB"
    else if len >? 256 then Returned "BLOB"
    else Returned "TINYBLOB"
  else if strict_eq_str t data_type.BOOLEAN then Returned "TINYINT(1)"
  else Base_mapDataType spec.

(** [createColumnConstraint(spec, options)], as the array of tokens it has
    built when it reaches its [return]: every [if] of the source either
    pushes or leaves the array as it is.  [options] is [None] when the caller
    passes no third argument, as [changeColumn] does; it is read only once
    [spec.primaryKey] has been found true. *)
Definition constraint_tokens (spec : Obj) (options : option Obj)
  : Completion (list JsVal) :=
  let constraint := [] in
  let constraint :=
    if truthy (get "unsigned" spec)
    then push (JStr "UNSIGNED") constraint else constraint in
  let! constraint :=
    if truthy (get "primaryKey" spec) then
      (let! o := read_options options in
       if truthy (get "emitPrimaryKey" o) then
         let constraint := push (JStr "PRIMARY KEY") constraint in
         Returned (if truthy (get "autoIncrement" spec)
                   then push (JStr "AUTO_INCREMENT") constraint
                   else constraint)
       else Returned constraint)
    else Returned constraint in
  let constraint :=
    if truthy (get "notNull" spec)
    then push (JStr "NOT NULL") constraint else constraint in
  let constraint :=
    if truthy (get "unique" spec)
    then push (JStr "UNIQUE") constraint else constraint in
  let constraint :=
    if truthy (get "null" spec)
    then push (JStr "NULL") constraint else constraint in
  let constraint :=
    if truthy (get "defaultValue" spec) then
      let constraint := push (JStr "DEFAULT") constraint in
      if String.eqb (typeof (get "defaultValue" spec)) "string"
      then push (JStr ("'" ++ to_string (get "defaultValue" spec) ++ "'"))
                constraint
      else push (get "defaultValue" spec) constraint
    else constraint in
  Returned constraint.

Definition createColumnConstraint (spec : Obj) (options : option Obj)
  : Completion string :=
  let! constraint := constraint_tokens spec options in
  Returned (join_vals " " constraint).

(** [createColumnDef(name, spec, options)]; [len] stays [undefined] for the
    TEXT and BLOB types. *)
Definition createColumnDef (name : string) (spec : Obj)
    (options : option Obj)
  : Completion string :=
  let! t := mapDataType spec in
  let ty := get "type" spec in
  let len :=
    if negb (strict_eq_str ty data_type.TEXT)
       && negb (strict_eq_str ty data_type.BLOB)
    then
      let len := if truthy (get "length" spec)
                 then util_format "(%s)" [get "length" spec] else "" in
      JStr (if String.eqb t "VARCHAR" && String.eqb len ""
            then "(255)" else len)
    else JUndef in
  let! constraint := createColumnConstraint spec options in
  Returned (join_vals " " [JStr name; JStr t; len; JStr constraint]).

(** [runSql(sql, ..., callback)]: [sql] is [arguments[0]], [rest] the
    arguments between it and the callback, the last argument. *)
Definition runSql (sql : string) (rest : list JsVal) (callback : Callback D)
  : M D unit :=
  let sql := replace_brackets "" sql in
  do! _ := log_sql sql rest in
  do! dry := get_dryRun in
  if truthy dry then call callback []
  else query connection_query sql rest callback.

(** [all(sql, ..., callback)]. *)
Definition all (sql : string) (rest : list JsVal) (callback : Callback D)
  : M D unit :=
  let sql := replace_brackets "" sql in
  query connection_query sql rest callback.

(** [removeIndex(tableName, indexName, callback)], by its list of
    arguments: the operation looks at how many it was called with. *)
Definition removeIndex (arguments : list JsVal) : M D unit :=
  let tableName := arg 0 arguments in
  let indexName := arg 1 arguments in
  let callback := arg 2 arguments in
  if (List.length arguments =? 2)%nat
     && String.eqb (typeof indexName) "function"
  then
    let callback := indexName in
    nextTick callback
      [JErr (q "Illegal arguments, must provide `tableName` and `indexName`")]
  else
    let sql := util_format "DROP INDEX %s ON %s" [indexName; tableName] in
    runSql sql [] (CbVal callback).

(** [renameColumn(tableName, oldColumnName, newColumnName, callback)]. *)
Definition renameColumn (tableName oldColumnName newColumnName : string)
    (callback : Callback D) : M D unit :=
  let columnTypeSql :=
    util_format
      "SELECT COLUMN_TYPE FROM INFORMATION_SCHEMA.COLUMNS WHERE TABLE_NAME = '%s' AND COLUMN_NAME = '%s'"
      [JStr tableName; JStr oldColumnName] in
  all columnTypeSql []
    (CbFun (fun args =>
       let result := arg 1 args in
       do! h := get_heap in
       do! row := lift (prop h result "0") in
       do! columnType := lift (prop h row "COLUMN_TYPE") in
       let alterSql :=
         util_format "ALTER TABLE %s CHANGE %s %s %s"
           [JStr tableName; JStr oldColumnName; JStr newColumnName;
            columnType] in
       runSql alterSql [] callback)).

(** [renameTable], [removeColumn] and [removeForeignKey]. *)
Definition renameTable (tableName newTableName : string)
    (callback : Callback D) : M D unit :=
  let sql :=
    util_format "RENAME TABLE %s TO %s" [JStr tableName; JStr newTableName] in
  runSql sql [] callback.

Definition removeColumn (tableName columnName : string)
    (callback : Callback D) : M D unit :=
  let sql :=
    util_format "ALTER TABLE %s DROP COLUMN %s"
      [JStr tableName; JStr columnName] in
  runSql sql [] callback.

Definition removeForeignKey (tableName foreignKeyName : string)
    (callback : Callback D) : M D unit :=
  let sql :=
    util_format "ALTER TABLE %s DROP FOREIGN KEY %s"
      [JStr tableName; JStr foreignKeyName] in
  runSql sql [] callback.

(** [addForeignKey(tableName, foreignKeyName, columns, parentTableName,
    parentColumns, opts, callback)]; an argument that was not passed is
    [undefined]. *)
Definition addForeignKey (tableName foreignKeyName : string)
    (columns : JsVal) (parentTableName : string)
    (parentColumns opts callback : JsVal) : M D unit :=
  let columns := as_array columns in
  let parentColumns := as_array parentColumns in
  do! h := get_heap in
  do! onUpdate := lift (prop h opts "onUpdate") in
  do! onUpdateAction := lift (action_clause " ON UPDATE " onUpdate) in
  do! onDelete := lift (prop h opts "onDelete") in
  do! onDeleteAction := lift (action_clause " ON DELETE " onDelete) in
  let sql :=
    util_format
      "ALTER TABLE %s ADD CONSTRAINT %s FOREIGN KEY (%s) REFERENCES %s(%s)%s%s"
      [JStr tableName; JStr foreignKeyName; JStr (join_vals ", " columns);
       JStr parentTableName; JStr (join_vals ", " parentColumns);
       JStr onUpdateAction; JStr onDeleteAction] in
  let callback := if truthy callback then callback else opts in
  runSql sql [] (CbVal callback).

(** [changeColumn(tableName, columnName, columnSpec, callback)]:
    [createColumnDef] is called without its third argument. *)
Definition changeColumn (tableName columnName : string) (columnSpec : Obj)
    (callback : Callback D) : M D unit :=
  do! constraint := lift (createColumnDef columnName columnSpec None) in
  let sql :=
    util_format "ALTER TABLE %s CHANGE COLUMN %s %s"
      [JStr tableName; JStr columnName; JStr constraint] in
  runSql sql [] callback.

(** [addMigrationRecord(name, callback)]; [formattedDate] is what
    [moment(new Date()).format('YYYY-MM-DD HH:mm:ss')] gives when the call is
    made, which the clock decides. *)
Definition addMigrationRecord (name : JsVal) (formattedDate : string)
    (callback : Callback D) : M D unit :=
  runSql "INSERT INTO migrations (name, run_on) VALUES (?, ?)"
    [JArr [name; JStr formattedDate]] callback.

End Driver.
End Mysql.

(* ===================================================================== *)
(** ** The PostgreSQL driver *)
(* ===================================================================== *)

Module Pg.
Section Driver.

Context {D : Type}.

(** [this.connection.query] of the driver's connection. *)
Variable connection_query : D -> string -> list JsVal -> D * (JsVal * JsVal).

(** [Base.mapDataType], reached through [this._super(spec)]: a parameter, as
    for the MySQL driver. *)
Variable Base_mapDataType : Obj -> Completion string.

(** [mapDataType(spec)]. *)
Definition mapDataType (spec : Obj) : Completion string :=
  let t := get "type" spec in
  if strict_eq_str t data_type.STRING then Returned "VARCHAR"
  else if strict_eq_str t data_type.DATE_TIME then Returned "TIMESTAMP"
  else if strict_eq_str t data_type.BLOB then Returned "BYTEA"
  else Base_mapDataType spec.

(** [createColumnConstraint(spec, options)], as the array of tokens it has
    built when it reaches its [return]. *)
Definition constraint_tokens (spec : Obj) (options : option Obj)
  : Completion (list JsVal) :=
  let constraint := [] in
  let! constraint :=
    if truthy (get "primaryKey" spec) then
      (let! o := read_options options in
       if truthy (get "emitPrimaryKey" o) then
         let constraint :=
           if truthy (get "autoIncrement" spec)
           then push (JStr "SERIAL") constraint else constraint in
         Returned (push (JStr "PRIMARY KEY") constraint)
       else Returned constraint)
    else Returned constraint in
  let constraint :=
    if truthy (get "notNull" spec)
    then push (JStr "NOT NULL") constraint else constraint in
  let constraint :=
    if truthy (get "unique" spec)
    then push (JStr "UNIQUE") constraint else constraint in
  let constraint :=
    if negb (String.eqb (typeof (get "defaultValue" spec)) "undefined") then
      let constraint := push (JStr "DEFAULT") constraint in
      if String.eqb (typeof (get "defaultValue" spec)) "string"
      then push (JStr ("'" ++ to_string (get "defaultValue" spec) ++ "'"))
                constraint
      else push (get "defaultValue" spec) constraint
    else constraint in
  Returned constraint.

Definition createColumnConstraint (spec : Obj) (options : option Obj)
  : Completion string :=
  let! constraint := constraint_tokens spec options in
  Returned (join_vals " " constraint).

(** [createColumnDef(name, spec, options)]. *)
Definition createColumnDef (name : string) (spec : Obj)
    (options : option Obj) : Completion string :=
  let! type :=
    if truthy (get "autoIncrement" spec)
    then Returned "" else mapDataType spec in
  let len :=
    if truthy (get "length" spec)
       && negb (String.eqb type "BYTEA") && negb (String.eqb type "TEXT")
    then util_format "(%s)" [get "length" spec] else "" in
  let! constraint := createColumnConstraint spec options in
  Returned (join_vals " " [JStr (dq ++ name ++ dq); JStr type; JStr len;
                           JStr constraint]).

(** The loop of [runSql] over the pieces between the question marks: piece
    [i] and the placeholder [$(i+1)] are pushed for every piece but the
    last, which is pushed alone. *)
Fixpoint number_params (param : list string) (i : nat) : list string :=
  match param with
  | [] => []
  | [last] => [last]
  | x :: rest =>
      x :: ("$" ++ string_of_Z (Z.of_nat (i + 1))) :: number_params rest (S i)
  end.

(** The statement [params[0]] that [runSql] logs and dispatches, for the
    template [sql] followed by the arguments [rest] and the callback. *)
Definition final_statement (sql : string) (rest : list JsVal) : string :=
  let sql :=
    if (2 <? List.length (JStr sql :: rest) + 1)%nat then
      let param := split "?" sql in
      join "" (number_params param 0)
    else sql in
  replace_brackets dq sql.

(** [runSql(sql, ..., callback)]: [sql] is [arguments[0]], [rest] the
    arguments between it and the callback, the last argument. *)
Definition runSql (sql : string) (rest : list JsVal) (callback : Callback D)
  : M D unit :=
  let sql := final_statement sql rest in
  do! _ := log_sql sql rest in
  do! dry := get_dryRun in
  if truthy dry then call callback []
  else query connection_query sql rest callback.

(** [all(sql, callback)]: the connection's answer goes through a function
    that hands [result.rows] to [params[1]]. *)
Definition all (sql : string) (callback : Callback D) : M D unit :=
  let sql := replace_brackets dq sql in
  query connection_query sql []
    (CbFun (fun args =>
       let err := arg 0 args in
       let result := arg 1 args in
       do! h := get_heap in
       do! rows := lift (prop h result "rows") in
       call callback [err; rows])).

(** [changeColumn(tableName, columnName, columnSpec, callback)] with its
    three inner functions.  [setUnique] calls the callback on an error and
    goes on; [setDefaultValue] returns on an error. *)
Definition changeColumn (tableName columnName : string) (columnSpec : Obj)
    (callback : Callback D) : M D unit :=
  let setDefaultValue : list JsVal -> M D unit := fun args =>
    let err := arg 0 args in
    if truthy err then call callback [err]
    else
      let sql :=
        if negb (is_undefined (get "defaultValue" columnSpec)) then
          let defaultValue :=
            if String.eqb (typeof (get "defaultValue" columnSpec)) "string"
            then JStr ("'" ++ to_string (get "defaultValue" columnSpec) ++ "'")
            else get "defaultValue" columnSpec in
          util_format (q "ALTER TABLE `%s` ALTER COLUMN `%s` SET DEFAULT %s")
            [JStr tableName; JStr columnName; defaultValue]
        else
          util_format (q "ALTER TABLE `%s` ALTER COLUMN `%s` DROP DEFAULT")
            [JStr tableName; JStr columnName] in
      runSql sql [] callback in
  let setUnique : list JsVal -> M D unit := fun args =>
    let err := arg 0 args in
    do! _ := (if truthy err then call callback [err] else ret tt) in
    let constraintName := tableName ++ "_" ++ columnName ++ "_unique" in
    if strict_eq_bool (get "unique" columnSpec) true then
      let sql :=
        util_format (q "ALTER TABLE `%s` ADD CONSTRAINT %s UNIQUE (`%s`)")
          [JStr tableName; JStr constraintName; JStr columnName] in
      runSql sql [] (CbFun setDefaultValue)
    else if strict_eq_bool (get "unique" columnSpec) false then
      let sql :=
        util_format (q "ALTER TABLE `%s` DROP CONSTRAINT %s")
          [JStr tableName; JStr constraintName] in
      runSql sql [] (CbFun setDefaultValue)
    else setDefaultValue [] in
  let setNotNull : M D unit :=
    let setOrDrop :=
      if strict_eq_bool (get "notNull" columnSpec) true
      then "SET" else "DROP" in
    let sql :=
      util_format (q "ALTER TABLE `%s` ALTER COLUMN `%s` %s NOT NULL")
        [JStr tableName; JStr columnName; JStr setOrDrop] in
    runSql sql [] (CbFun setUnique) in
  setNotNull.

(** One turn of the loop of [insert], for the index [index]; the pair is
    [columnNames] and [values]. *)
Definition insert_step (columnNameArray valueArray : list JsVal)
    (acc : string * string) (index : nat) : string * string :=
  let '(columnNames, values) := acc in
  let columnNames :=
    columnNames ++ (dq ++ to_string (arg index columnNameArray) ++ dq) in
  let values :=
    if String.eqb (typeof (arg index valueArray)) "string"
    then values ++ "'"
         ++ replace_first "'" "''" (to_string (arg index valueArray)) ++ "'"
    else values ++ to_string (arg index valueArray) in
  if negb (Z.of_nat index =? Z.of_nat (List.length columnNameArray) - 1)
  then (columnNames ++ ",", values ++ ",")
  else (columnNames, values).

(** The statement [insert] builds once the two arrays have the same
    length. *)
Definition insert_sql (tableName : string)
    (columnNameArray valueArray : list JsVal) : string :=
  let sql := util_format (q "INSERT INTO `%s` ") [JStr tableName] in
  let '(columnNames, values) :=
    fold_left (insert_step columnNameArray valueArray)
              (seq 0 (List.length columnNameArray)) ("(", "VALUES (") in
  sql ++ (columnNames ++ ") " ++ values ++ ");").

(** [insert(tableName, columnNameArray, valueArray, callback)]. *)
Definition insert (tableName : string)
    (columnNameArray valueArray : list JsVal) (callback : Callback D)
  : M D unit :=
  if negb (List.length columnNameArray =? List.length valueArray)%nat
  then call callback
         [JErr "The number of columns does not match the number of values."]
  else runSql (insert_sql tableName columnNameArray valueArray) [] callback.

(** [Base.normalizeColumnSpec] and [semver.gte]: the base driver and the
    [semver] package are outside the sources and are taken as parameters. *)
Variable normalizeColumnSpec : JsVal -> JsVal.
Variable semver_gte : string -> string -> Completion bool.

(** What stands for a call that leaves the embedding. *)
Definition Unmodelled : JsVal := JErr "outside the embedding".

(** The object a [for (k in columnSpecs)] loop of [createTable] runs over,
    as a location: a shared object is its own location, an object held by
    value gets one; [None] for a value that has no enumerable property.
    The columns are a mapping: a string or an array in their place is
    outside the embedding. *)
Definition enumerable (columnSpecs : JsVal) : M D (option loc) :=
  match columnSpecs with
  | JRef c => ret (Some c)
  | JObj o => do! c := alloc o in ret (Some c)
  | JStr _ | JArr _ => throw Unmodelled
  | JUndef | JNull | JBool _ | JNum _ | JFun _ | JErr _ => ret None
  end.

(** The keys a [for]-[in] loop over the object at [c] visits. *)
Definition keys (c : loc) : M D (list string) :=
  do! o := deref c in ret (List.map fst o).

(** The body of the first loop of [createTable], over the columns at [c]:
    the specification of [columnName] is normalized and written back. *)
Definition normalize_column (c : loc) (primaryKeyColumns : list string)
    (columnName : string) : M D (list string) :=
  do! cs := deref c in
  let columnSpec := normalizeColumnSpec (get columnName cs) in
  do! _ := store c (assign columnName columnSpec cs) in
  do! h := get_heap in
  do! pk := lift (prop h columnSpec "primaryKey") in
  ret (if truthy pk then push columnName primaryKeyColumns
       else primaryKeyColumns).

(** The body of its second loop. *)
Definition define_column (c : loc) (columnDefOptions : option Obj)
    (columnDefs : list string) (columnName : string) : M D (list string) :=
  do! cs := deref c in
  do! h := get_heap in
  do! spec := lift (props_of h (get columnName cs)) in
  do! def := lift (createColumnDef columnName spec columnDefOptions) in
  ret (push def columnDefs).

(** A [for]-[in] loop over the object at [c], if there is one to run
    over. *)
Definition for_in {B} (c : option loc) (acc : B)
    (body : loc -> B -> string -> M D B) : M D B :=
  match c with
  | Some c => do! names := keys c in for_each names acc (body c)
  | None => ret acc
  end.

(** [createTable(tableName, options, callback)]; [options] is the location
    of the caller's object. *)
Definition createTable (tableName : string) (options : loc)
    (callback : Callback D) : M D unit :=
  do! opts := deref options in
  let columns := get "columns" opts in
  do! split_options :=
    (if negb (is_undefined columns) then
       do! _ := store options (del "columns" opts) in
       ret (columns, del "columns" opts)
     else ret (JRef options, [])) in
  let '(columnSpecs, tableOptions) := split_options in
  let ifNotExistsSql :=
    if truthy (get "ifNotExists" tableOptions) then "IF NOT EXISTS" else "" in
  do! c := enumerable columnSpecs in
  do! primaryKeyColumns := for_in c [] normalize_column in
  let '(pkSql, emitPrimaryKey) :=
    if (1 <? List.length primaryKeyColumns)%nat
    then (util_format ", PRIMARY KEY (%s)"
            [JStr (join ", " primaryKeyColumns)], false)
    else ("", true) in
  let columnDefOptions := Some [("emitPrimaryKey", JBool emitPrimaryKey)] in
  do! columnDefs :=
    for_in c [] (fun c => define_column c columnDefOptions) in
  let sql :=
    util_format (q "CREATE TABLE %s `%s` (%s%s)")
      [JStr ifNotExistsSql; JStr tableName; JStr (join ", " columnDefs);
       JStr pkSql] in
  runSql sql [] callback.

(** The two queries of [createMigrationsTable]. *)
Definition version_query : string := "select version() as version".

Definition exists_query : string :=
  "SELECT table_name FROM information_schema.tables WHERE table_schema = 'public' AND table_name = 'migrations'".

(** The columns of the migrations table. *)
Definition migrations_columns : Obj :=
  [("id", JObj [("type", JStr data_type.INTEGER); ("notNull", JBool true);
                ("primaryKey", JBool true); ("autoIncrement", JBool true)]);
   ("name", JObj [("type", JStr data_type.STRING); ("length", JNum 255);
                  ("notNull", JBool true)]);
   ("run_on", JObj [("type", JStr data_type.DATE_TIME);
                    ("notNull", JBool true)])].

(** Whether the answer to the version query names a server from 9.1.0
    on: the test that sets [options.ifNotExists]. *)
Definition version_allows_if_not_exists (h : Heap) (result : JsVal)
  : Completion bool :=
  let! rows := prop h result "rows" in
  if negb (truthy rows) then Returned false else
  let! len := prop h rows "length" in
  if negb (gt_num len 0) then Returned false else
  let! row := prop h rows "0" in
  let! version := prop h row "version" in
  if negb (truthy version) then Returned false else
  match version with
  | JStr v =>
      match version_match v with
      | Some m => semver_gte m "9.1.0"
      | None => Returned false
      end
  | _ => Threw (TypeError "version.match is not a function")
  end.

(** The function [createMigrationsTable] hands to the second [runSql],
    for the answer to the query for the table: it creates the table when
    the answer has no row. *)
Definition on_exists (options : loc) (callback : Callback D)
  : list JsVal -> M D unit := fun args =>
  let err := arg 0 args in
  let result := arg 1 args in
  if truthy err then call callback [err] else
  do! h := get_heap in
  do! rows := lift (prop h result "rows") in
  do! absent :=
    (if truthy rows then
       do! len := lift (prop h rows "length") in
       ret (lt_num len 1)
     else ret false) in
  if absent : bool then createTable "migrations" options callback
  else call callback [].

(** The function it hands to the first [runSql], for the answer to the
    version query. *)
Definition on_version (options : loc) (callback : Callback D)
  : list JsVal -> M D unit := fun args =>
  let err := arg 0 args in
  let result := arg 1 args in
  if truthy err then call callback [err] else
  do! h := get_heap in
  do! newer := lift (version_allows_if_not_exists h result) in
  do! _ :=
    (if newer : bool then
       do! opts := deref options in
       store options (assign "ifNotExists" (JBool true) opts)
     else ret tt) in
  runSql exists_query [] (CbFun (on_exists options callback)).

(** [createMigrationsTable(callback)]. *)
Definition createMigrationsTable (callback : Callback D) : M D unit :=
  do! columns := alloc migrations_columns in
  do! options :=
    alloc [("columns", JRef columns); ("ifNotExists", JBool false)] in
  runSql version_query [] (CbFun (on_version options callback)).

(** [addIndex(tableName, indexName, columns, opts, callback)]; an
    argument that was not passed is [undefined]. *)
Definition addIndex (tableName indexName : string)
    (columns opts callback : JsVal) : M D unit :=
  let columns := as_array columns in
  let cols := quoted columns in
  do! h := get_heap in
  do! unique :=
    (if truthy opts then lift (prop h opts "unique") else ret opts) in
  let uniqueSql := if truthy unique then "UNIQUE" else "" in
  let sql :=
    util_format (q "CREATE %s INDEX %s ON `%s` (%s)")
      [JStr uniqueSql; JStr indexName; JStr tableName;
       JStr (join ", " cols)] in
  let callback := if truthy callback then callback else opts in
  runSql sql [] (CbVal callback).

(** [startMigration(cb)] and [endMigration(cb)]. *)
Definition startMigration (cb : Callback D) : M D unit :=
  runSql "BEGIN;" [] (CbFun (fun _ => call cb [])).

Definition endMigration (cb : Callback D) : M D unit :=
  runSql "COMMIT;" [] (CbFun (fun _ => call cb [JNull])).

(** [renameTable], [removeColumn], [renameColumn] and
    [removeForeignKey]. *)
Definition renameTable (tableName newTableName : string)
    (callback : Callback D) : M D unit :=
  let sql :=
    util_format (q "ALTER TABLE `%s` RENAME TO `%s`")
      [JStr tableName; JStr newTableName] in
  runSql sql [] callback.

Definition removeColumn (tableName columnName : string)
    (callback : Callback D) : M D unit :=
  let sql :=
    util_format (q "ALTER TABLE `%s` DROP COLUMN `%s`")
      [JStr tableName; JStr columnName] in
  runSql sql [] callback.

Definition renameColumn (tableName oldColumnName newColumnName : string)
    (callback : Callback D) : M D unit :=
  let sql :=
    util_format (q "ALTER TABLE `%s` RENAME COLUMN `%s` TO `%s`")
      [JStr tableName; JStr oldColumnName; JStr newColumnName] in
  runSql sql [] callback.

Definition removeForeignKey (tableName foreignKeyName : string)
    (callback : Callback D) : M D unit :=
  let sql :=
    util_format (q "ALTER TABLE `%s` DROP CONSTRAINT %s")
      [JStr tableName; JStr foreignKeyName] in
  runSql sql [] callback.

(** [addColumn(tableName, columnName, columnSpec, callback)]:
    [createColumnDef] is called without its third argument. *)
Definition addColumn (tableName columnName : string) (columnSpec : JsVal)
    (callback : Callback D) : M D unit :=
  do! h := get_heap in
  do! spec := lift (props_of h (normalizeColumnSpec columnSpec)) in
  do! def := lift (createColumnDef columnName spec None) in
  let sql :=
    util_format (q "ALTER TABLE `%s` ADD COLUMN %s")
      [JStr tableName; JStr def] in
  runSql sql [] callback.

(** [addForeignKey(tableName, foreignKeyName, columns, parentTableName,
    parentColumns, opts, callback)]; an argument that was not passed is
    [undefined]. *)
Definition addForeignKey (tableName foreignKeyName : string)
    (columns : JsVal) (parentTableName : string)
    (parentColumns opts callback : JsVal) : M D unit :=
  let columns := as_array columns in
  let parentColumns := as_array parentColumns in
  let cols := quoted columns in
  let pcols := quoted parentColumns in
  do! h := get_heap in
  do! onUpdate := lift (prop h opts "onUpdate") in
  do! onUpdateAction := lift (action_clause " ON UPDATE " onUpdate) in
  do! onDelete := lift (prop h opts "onDelete") in
  do! onDeleteAction := lift (action_clause " ON DELETE " onDelete) in
  let sql :=
    util_format
      (q "ALTER TABLE `%s` ADD CONSTRAINT %s FOREIGN KEY(%s) REFERENCES `%s`(%s)%s%s")
      [JStr tableName; JStr foreignKeyName; JStr (join ", " cols);
       JStr parentTableName; JStr (join ", " pcols);
       JStr onUpdateAction; JStr onDeleteAction] in
  let callback := if truthy callback then callback else opts in
  runSql sql [] (CbVal callback).

End Driver.
End Pg.

(* ===================================================================== *)
(** ** The specification's words, and parameters for the examples *)
(* ===================================================================== *)







(** A base mapping for the examples: the type constant is its own token. *)
Definition base_passthrough (spec : Obj) : Completion string :=
  Returned (to_string (get "type" spec)).

(** A token that is present only when its field is set. *)
Definition opt_token (present : bool) (t : string) : list JsVal :=
  if present then [JStr t] else [].

(** [DEFAULT] and its value: a string between single quotes, any other
    value as it is. *)
Definition default_clause (v : JsVal) : list JsVal :=
  [JStr "DEFAULT";
   if String.eqb (typeof v) "string" then JStr ("'" ++ to_string v ++ "'")
   else v].

(** The tokens of a constraint clause in the specification's fixed order:
    UNSIGNED, the primary-key marker followed by the auto-increment marker
    (both only under [emitPrimaryKey] and [primaryKey]), NOT NULL, UNIQUE,
    NULL, DEFAULT with its value, each present exactly when its field is
    set. *)
Definition stated_tokens (primary_key auto_increment : string) (spec : Obj)
    (options : Obj) : list JsVal :=
  (opt_token (truthy (get "unsigned" spec)) "UNSIGNED"
   ++ (if truthy (get "emitPrimaryKey" options)
          && truthy (get "primaryKey" spec)
       then JStr primary_key
            :: opt_token (truthy (get "autoIncrement" spec)) auto_increment
       else [])
   ++ opt_token (truthy (get "notNull" spec)) "NOT NULL"
   ++ opt_token (truthy (get "unique" spec)) "UNIQUE"
   ++ opt_token (truthy (get "null" spec)) "NULL"
   ++ (if is_undefined (get "defaultValue" spec) then []
       else default_clause (get "defaultValue" spec)))%list.

(** The order of the PostgreSQL driver: SERIAL comes before PRIMARY KEY, and
    there is neither UNSIGNED nor NULL. *)
Definition pg_token_order (spec : Obj) (options : Obj) : list JsVal :=
  ((if truthy (get "emitPrimaryKey" options)
       && truthy (get "primaryKey" spec)
    then opt_token (truthy (get "autoIncrement" spec)) "SERIAL"
         ++ [JStr "PRIMARY KEY"]
    else [])
   ++ opt_token (truthy (get "notNull" spec)) "NOT NULL"
   ++ opt_token (truthy (get "unique" spec)) "UNIQUE"
   ++ (if is_undefined (get "defaultValue" spec) then []
       else default_clause (get "defaultValue" spec)))%list.

(** The placeholders of the specification: reading the template from left
    to right, the question marks become [$k], [$(k+1)], ... and every other
    character stays. *)
Fixpoint number_markers (s : string) (k : nat) : string :=
  match s with
  | EmptyString => EmptyString
  | String c s' =>
      if Ascii.eqb c "?"
      then ("$" ++ string_of_Z (Z.of_nat k)) ++ number_markers s' (S k)
      else String c (number_markers s' k)
  end.

(** A template without the bracket markers. *)
Fixpoint bracket_free (s : string) : bool :=
  match s with
  | EmptyString => true
  | String c s' =>
      negb (Ascii.eqb c "[" || Ascii.eqb c "]") && bracket_free s'
  end.

(** How many times a character occurs in a string. *)
Fixpoint count_char (c : ascii) (s : string) : nat :=
  match s with
  | EmptyString => 0
  | String a s' => ((if Ascii.eqb a c then 1 else 0) + count_char c s')%nat
  end.

(** A connection for the examples that answers every statement with no
    error and no row. *)
Definition connection_ok (d : unit) (sql : string) (rest : list JsVal)
  : unit * (JsVal * JsVal) :=
  (d, (JNull, JObj [("rows", JArr [])])).

(** A connection for the examples that counts the statements it gets and
    fails the first one. *)
Definition connection_fails_first (d : nat) (sql : string)
    (rest : list JsVal) : nat * (JsVal * JsVal) :=
  (S d, match d with
        | O => (JErr "first statement failed", JUndef)
        | S _ => (JNull, JObj [("rows", JArr [])])
        end).

(** The world before anything has happened, with the dry-run flag and the
    state of the connection given. *)
Definition initial {D} (dry : JsVal) (d : D) : World D :=
  mkWorld [] dry d [] [] [] [].

(** What an operation leaves in dry-run mode when it succeeds: it returns,
    nothing has reached the connection, and the caller's function has been
    called once, with no argument and so with no error. *)
Definition dry_outcome {D} (id : nat) (w : World D)
    (res : Completion unit * World D) : Prop :=
  fst res = Returned tt
  /\ sent (snd res) = sent w
  /\ db (snd res) = db w
  /\ calls (snd res) = push (id, []) (calls w).

(** A world with another heap. *)
Definition with_heap {D} (h : Heap) (w : World D) : World D :=
  mkWorld h (dryRun w) (db w) (sent w) (logged w) (calls w) (ticks w).

(** A computation that leaves the heap as it found it, however it ends. *)
Definition keeps_heap {D A} (m : M D A) : Prop :=
  forall w, heap (snd (m w)) = heap w.

(** Every specification of a columns mapping normalized, in place. *)
Definition normalized (normalizeColumnSpec : JsVal -> JsVal) (cols : Obj)
  : Obj :=
  List.map (fun kv => (fst kv, normalizeColumnSpec (snd kv))) cols.

(** A value on which a property can be read. *)
Definition readable (v : JsVal) : Prop := v <> JUndef /\ v <> JNull.

(** The normalization of the base driver, for the examples: a type given
    alone stands for the specification of that type. *)
Definition normalize_shorthand (v : JsVal) : JsVal :=
  match v with
  | JStr t => JObj [("type", JStr t)]
  | _ => v
  end.

(** The statement [createTable] builds for the migrations table. *)
Definition create_migrations_sql (ifNotExists : bool) : string :=
  q ("CREATE TABLE " ++ (if ifNotExists then "IF NOT EXISTS" else "")
     ++ " `migrations` (`id`   SERIAL PRIMARY KEY NOT NULL, "
     ++ "`name` VARCHAR (255) NOT NULL, `run_on` TIMESTAMP  NOT NULL)").

(** A database for the examples, known by the number of its migrations
    tables: it tells its version, lists the table when it is there, and
    creates it, failing when it is there already and the statement does not
    say IF NOT EXISTS. *)
Definition toy_database (d : nat) (sql : string) (rest : list JsVal)
  : nat * (JsVal * JsVal) :=
  if String.eqb sql "select version() as version" then
    (d, (JNull,
         JObj [("rows",
                JArr [JObj [("version", JStr "PostgreSQL 9.3.1 on x86_64")]])]))
  else if String.prefix "SELECT table_name FROM information_schema" sql then
    (d, (JNull,
         JObj [("rows",
                JArr (repeat (JObj [("table_name", JStr "migrations")]) d))]))
  else if String.prefix "CREATE TABLE" sql then
    match d with
    | O => (1%nat, (JNull, JObj [("rows", JArr [])]))
    | S _ =>
        if String.prefix "CREATE TABLE IF NOT EXISTS" sql
        then (d, (JNull, JObj [("rows", JArr [])]))
        else (d, (JErr "relation already exists", JUndef))
    end
  else (d, (JErr "syntax error", JUndef)).

(** A comparison of versions for the examples: every server is recent. *)
Definition always_recent (v v' : string) : Completion bool := Returned true.

(** The statement as [runSql] of the PostgreSQL driver hands it on when it
    is called with the statement and a callback only. *)
Definition pg_dispatched (sql : string) : string * list JsVal :=
  (Pg.final_statement sql [], []).

(** The three statements of the PostgreSQL [changeColumn], as its inner
    functions format them; there is no uniqueness statement when [unique]
    is neither [true] nor [false]. *)
Definition pg_nullability_sql (tableName columnName : string) (spec : Obj)
  : string :=
  util_format (q "ALTER TABLE `%s` ALTER COLUMN `%s` %s NOT NULL")
    [JStr tableName; JStr columnName;
     JStr (if strict_eq_bool (get "notNull" spec) true
           then "SET" else "DROP")].

Definition pg_uniqueness_sql (tableName columnName : string) (spec : Obj)
  : option string :=
  let constraintName := tableName ++ "_" ++ columnName ++ "_unique" in
  if strict_eq_bool (get "unique" spec) true then
    Some (util_format (q "ALTER TABLE `%s` ADD CONSTRAINT %s UNIQUE (`%s`)")
            [JStr tableName; JStr constraintName; JStr columnName])
  else if strict_eq_bool (get "unique" spec) false then
    Some (util_format (q "ALTER TABLE `%s` DROP CONSTRAINT %s")
            [JStr tableName; JStr constraintName])
  else None.

Definition pg_default_sql (tableName columnName : string) (spec : Obj)
  : string :=
  if negb (is_undefined (get "defaultValue" spec)) then
    util_format (q "ALTER TABLE `%s` ALTER COLUMN `%s` SET DEFAULT %s")
      [JStr tableName; JStr columnName;
       if String.eqb (typeof (get "defaultValue" spec)) "string"
       then JStr ("'" ++ to_string (get "defaultValue" spec) ++ "'")
       else get "defaultValue" spec]
  else
    util_format (q "ALTER TABLE `%s` ALTER COLUMN `%s` DROP DEFAULT")
      [JStr tableName; JStr columnName].

(** A connection for the examples that counts the statements it gets and
    fails the one it gets when the count is [n]. *)
Definition connection_fails_nth (n : nat) (d : nat) (sql : string)
    (rest : list JsVal) : nat * (JsVal * JsVal) :=
  (S d, if (d =? n)%nat
        then (JErr "statement failed", JUndef)
        else (JNull, JObj [("rows", JArr [])])).

(** One value of [insert], as the loop appends it to [values]: a string
    between single quotes with its first quote doubled, any other value as
    [+] prints it. *)
Definition insert_value (v : JsVal) : string :=
  if String.eqb (typeof v) "string"
  then "'" ++ replace_first "'" "''" (to_string v) ++ "'"
  else to_string v.

(** The two marks that [runSql] and [all] rewrite. *)
Definition is_bracket (c : ascii) : bool :=
  Ascii.eqb c "[" || Ascii.eqb c "]".

(** The two statements of the MySQL [renameColumn], as it formats them, and
    a statement as the MySQL driver hands it on when it is called with the
    statement and a callback only. *)
Definition mysql_column_type_sql (tableName columnName : string) : string :=
  util_format
    "SELECT COLUMN_TYPE FROM INFORMATION_SCHEMA.COLUMNS WHERE TABLE_NAME = '%s' AND COLUMN_NAME = '%s'"
    [JStr tableName; JStr columnName].

Definition mysql_rename_sql (tableName oldColumnName newColumnName : string)
    (columnType : JsVal) : string :=
  util_format "ALTER TABLE %s CHANGE %s %s %s"
    [JStr tableName; JStr oldColumnName; JStr newColumnName; columnType].

Definition mysql_dispatched (sql : string) : string * list JsVal :=
  (replace_brackets "" sql, []).

(** A connection for the examples that answers every statement with no
    error and the rows given. *)
Definition connection_with_rows (rows : list JsVal) (d : unit) (sql : string)
    (rest : list JsVal) : unit * (JsVal * JsVal) :=
  (d, (JNull, JArr rows)).

(** A base driver for the examples that maps every type to VARCHAR. *)
Definition base_varchar (spec : Obj) : Completion string :=
  Returned "VARCHAR".



(* ===================================================================== *)
(** * Properties *)
(* ===================================================================== *)

(* --------------------------------------------------------------------- *)
(** ** Numbers and their digits *)






(* --------------------------------------------------------------------- *)
(** ** The size-tiered types of the MySQL driver *)






(* --------------------------------------------------------------------- *)
(** ** The constraint clause *)

(** A property read does not depend on the order in which the object
    lists its properties. *)
Lemma get_Permutation (o o' : Obj) :
  Permutation o o' -> List.NoDup (List.map fst o) ->
  forall k, get k o = get k o'.
Proof.
  induction 1 as [| [k1 v1] l l' Hp IH | [k1 v1] [k2 v2] l | l l' l'' H1 IH1 H2 IH2];
    intros Hnd k.
  - reflexivity.
  - cbn. inversion Hnd; subst. rewrite IH by assumption. reflexivity.
  - cbn. cbn in Hnd. inversion Hnd as [| ? ? Hnotin ?]; subst.
    destruct (String.eqb_spec k k1), (String.eqb_spec k k2);
      try reflexivity.
    subst. exfalso. apply Hnotin. now left.
  - rewrite IH1 by assumption. apply IH2.
    eapply Permutation_NoDup; [| exact Hnd].
    apply Permutation_map. assumption.
Qed.

Lemma mysql_tokens_ext (o o' : Obj) (options : option Obj) :
  (forall k, get k o = get k o') ->
  Mysql.constraint_tokens o options = Mysql.constraint_tokens o' options.
Proof.
  intro H. unfold Mysql.constraint_tokens. rewrite !H. reflexivity.
Qed.

Lemma pg_tokens_ext (o o' : Obj) (options : option Obj) :
  (forall k, get k o = get k o') ->
  Pg.constraint_tokens o options = Pg.constraint_tokens o' options.
Proof.
  intro H. unfold Pg.constraint_tokens. rewrite !H. reflexivity.
Qed.

(** C4, as stated, fails for the PostgreSQL driver: under [emitPrimaryKey]
    a primary key that auto-increments gets SERIAL before PRIMARY KEY, not
    after it. *)
Lemma C4_pg_serial_precedes_primary_key :
  Pg.constraint_tokens
    [("primaryKey", JBool true); ("autoIncrement", JBool true)]
    (Some [("emitPrimaryKey", JBool true)])
  <> Returned (stated_tokens "PRIMARY KEY" "SERIAL"
                 [("primaryKey", JBool true); ("autoIncrement", JBool true)]
                 [("emitPrimaryKey", JBool true)]).
Proof. vm_compute. discriminate. Qed.

(** C4, amended: the MySQL [createColumnConstraint] emits its tokens in the
    order UNSIGNED, PRIMARY KEY, AUTO_INCREMENT, NOT NULL, UNIQUE, NULL,
    DEFAULT and its value, each present exactly when its field is set (the
    primary-key pair only under [emitPrimaryKey] and [primaryKey]), for a
    default value that is unset or truthy.  The PostgreSQL one emits SERIAL,
    PRIMARY KEY, NOT NULL, UNIQUE, DEFAULT and its value, and never UNSIGNED
    or NULL.  Neither depends on the order of the fields of the
    specification. *)
Theorem createColumnConstraint_token_order (spec options : Obj) :
  (truthy (get "defaultValue" spec)
   = negb (is_undefined (get "defaultValue" spec)) ->
   Mysql.constraint_tokens spec (Some options)
   = Returned (stated_tokens "PRIMARY KEY" "AUTO_INCREMENT" spec options))
  /\ Pg.constraint_tokens spec (Some options)
     = Returned (pg_token_order spec options)
  /\ (forall spec',
        List.NoDup (List.map fst spec) -> Permutation spec spec' ->
        Mysql.createColumnConstraint spec' (Some options)
        = Mysql.createColumnConstraint spec (Some options)
        /\ Pg.createColumnConstraint spec' (Some options)
           = Pg.createColumnConstraint spec (Some options)).
Proof.
  split; [| split].
  - intro Hdv.
    unfold Mysql.constraint_tokens, stated_tokens, opt_token, default_clause,
      read_options, push, cbind.
    rewrite Hdv.
    destruct (truthy (get "unsigned" spec)),
      (truthy (get "primaryKey" spec)),
      (truthy (get "emitPrimaryKey" options)),
      (truthy (get "autoIncrement" spec)),
      (truthy (get "notNull" spec)),
      (truthy (get "unique" spec)),
      (truthy (get "null" spec)),
      (is_undefined (get "defaultValue" spec)),
      (String.eqb (typeof (get "defaultValue" spec)) "string");
      reflexivity.
  - unfold Pg.constraint_tokens, pg_token_order, opt_token, default_clause,
      read_options, push, cbind.
    assert (Hty : negb (String.eqb (typeof (get "defaultValue" spec))
                          "undefined")
                  = negb (is_undefined (get "defaultValue" spec)))
      by (destruct (get "defaultValue" spec); reflexivity).
    rewrite Hty.
    destruct (truthy (get "primaryKey" spec)),
      (truthy (get "emitPrimaryKey" options)),
      (truthy (get "autoIncrement" spec)),
      (truthy (get "notNull" spec)),
      (truthy (get "unique" spec)),
      (is_undefined (get "defaultValue" spec)),
      (String.eqb (typeof (get "defaultValue" spec)) "string");
      reflexivity.
  - intros spec' Hnd Hp.
    pose proof (get_Permutation _ _ Hp Hnd) as Hget.
    unfold Mysql.createColumnConstraint, Pg.createColumnConstraint.
    rewrite (mysql_tokens_ext spec spec' _ Hget).
    rewrite (pg_tokens_ext spec spec' _ Hget).
    split; reflexivity.
Qed.

Lemma createColumnConstraint_token_order_witness :
  Mysql.constraint_tokens
    [("defaultValue", JStr "x"); ("notNull", JBool true);
     ("unsigned", JNum 1)]
    (Some [("emitPrimaryKey", JBool false)])
  = Returned [JStr "UNSIGNED"; JStr "NOT NULL"; JStr "DEFAULT"; JStr "'x'"]
  /\ Pg.createColumnConstraint
       [("notNull", JBool true); ("unsigned", JNum 1);
        ("defaultValue", JStr "x")]
       (Some [("emitPrimaryKey", JBool false)])
     = Pg.createColumnConstraint
         [("defaultValue", JStr "x"); ("notNull", JBool true);
          ("unsigned", JNum 1)]
         (Some [("emitPrimaryKey", JBool false)]).
Proof.
  pose proof (createColumnConstraint_token_order
                [("defaultValue", JStr "x"); ("notNull", JBool true);
                 ("unsigned", JNum 1)]
                [("emitPrimaryKey", JBool false)]) as [Hm [_ Hperm]].
  split.
  - exact (Hm eq_refl).
  - refine (proj2 (Hperm _ _ _)).
    + repeat constructor; cbn; intuition congruence.
    + apply perm_trans with
        [("notNull", JBool true); ("defaultValue", JStr "x");
         ("unsigned", JNum 1)];
        [apply perm_swap | apply perm_skip, perm_swap].
Defined.

(** C9: a default value of 0 is set, and the MySQL
    [createColumnConstraint] emits no DEFAULT clause for it, while the
    PostgreSQL one does. *)
Theorem mysql_falsy_default_is_dropped :
  Mysql.createColumnConstraint [("defaultValue", JNum 0)]
    (Some [("emitPrimaryKey", JBool false)])
  = Returned ""
  /\ Pg.createColumnConstraint [("defaultValue", JNum 0)]
       (Some [("emitPrimaryKey", JBool false)])
     = Returned "DEFAULT 0".
Proof. split; reflexivity. Qed.

(* --------------------------------------------------------------------- *)
(** ** The placeholders of the PostgreSQL [runSql] *)

Lemma split_nonempty (c : ascii) (s : string) : split c s <> [].
Proof.
  destruct s as [| a s]; cbn; [discriminate |].
  destruct (Ascii.eqb a c); [discriminate |].
  destruct (split c s); discriminate.
Qed.

Lemma append_empty_r (s : string) : s ++ "" = s.
Proof. induction s; cbn; congruence. Qed.

Lemma join_empty_cons (x : string) (l : list string) :
  join "" (x :: l) = x ++ join "" l.
Proof.
  destruct l; cbn [join]; [symmetry; apply append_empty_r | reflexivity].
Qed.

Lemma number_params_cons (x : string) (l : list string) (i : nat) :
  l <> [] ->
  Pg.number_params (x :: l) i
  = x :: ("$" ++ string_of_Z (Z.of_nat (i + 1))) :: Pg.number_params l (S i).
Proof. destruct l; [contradiction | reflexivity]. Qed.

Lemma number_params_head (a : ascii) (x : string) (xs : list string)
    (i : nat) :
  join "" (Pg.number_params (String a x :: xs) i)
  = String a (join "" (Pg.number_params (x :: xs) i)).
Proof.
  destruct xs as [| y ys]; [reflexivity |].
  rewrite (number_params_cons (String a x)) by discriminate.
  rewrite (number_params_cons x) by discriminate.
  rewrite !join_empty_cons. reflexivity.
Qed.

(** Splitting at the question marks and joining the pieces with numbered
    placeholders is the left-to-right numbering. *)
Lemma number_params_markers (s : string) (i : nat) :
  join "" (Pg.number_params (split "?" s) i) = number_markers s (i + 1).
Proof.
  revert i. induction s as [| a s IH]; intro i; [reflexivity |].
  pose proof (split_nonempty "?" s) as Hne.
  cbn [split number_markers].
  destruct (Ascii.eqb a "?").
  - rewrite number_params_cons by assumption.
    rewrite !join_empty_cons, IH.
    replace (S i + 1)%nat with (S (i + 1)) by lia.
    reflexivity.
  - destruct (split "?" s) as [| x xs]; [contradiction |].
    rewrite number_params_head, IH. reflexivity.
Qed.

Lemma bracket_free_app (s t : string) :
  bracket_free (s ++ t) = bracket_free s && bracket_free t.
Proof.
  induction s as [| c s IH]; cbn; [reflexivity |].
  rewrite IH. apply andb_assoc.
Qed.

Lemma bracket_free_uint (d : Decimal.uint) :
  bracket_free (NilEmpty.string_of_uint d) = true.
Proof. induction d; cbn; auto. Qed.

Lemma bracket_free_number (z : Z) : bracket_free (string_of_Z z) = true.
Proof.
  unfold string_of_Z.
  assert (H : forall d, bracket_free (NilZero.string_of_uint d) = true)
    by (intro d; destruct d;
        [reflexivity | apply (bracket_free_uint (_ _)) ..]).
  destruct (Z.to_int z) as [d | d]; cbn [NilZero.string_of_int];
    [apply H | cbn [bracket_free]; apply H].
Qed.

Lemma bracket_free_number_markers (s : string) (k : nat) :
  bracket_free s = true -> bracket_free (number_markers s k) = true.
Proof.
  revert k. induction s as [| c s IH]; intro k; [reflexivity |].
  cbn [bracket_free number_markers].
  destruct (Ascii.eqb c "[" || Ascii.eqb c "]") eqn:Hb; cbn [negb andb];
    [discriminate |].
  intro H. destruct (Ascii.eqb c "?").
  - rewrite !bracket_free_app, bracket_free_number, IH by assumption.
    reflexivity.
  - cbn [bracket_free]. rewrite Hb. apply IH. assumption.
Qed.

Lemma replace_brackets_bracket_free (r s : string) :
  bracket_free s = true -> replace_brackets r s = s.
Proof.
  induction s as [| c s IH]; cbn; [reflexivity |].
  destruct (Ascii.eqb c "[" || Ascii.eqb c "]"); cbn; [discriminate |].
  intro H. rewrite IH by assumption. reflexivity.
Qed.

(** C5, as stated, fails: with a parameter, the brackets of the template
    do not stay as they are. *)
Lemma C5_brackets_do_not_stay :
  Pg.final_statement "[a]=?" [JNum 1] <> number_markers "[a]=?" 1.
Proof. vm_compute. discriminate. Qed.

(** C5, amended: with at least one parameter, the statement [runSql] of the
    PostgreSQL driver dispatches is the template with its question marks
    numbered [$1], [$2], ... from left to right and every [[] and []]
    turned into a double quote, the rest unchanged (all of it, for a
    template without brackets); with no parameter the question marks stay
    and only the brackets are turned. *)
Theorem pg_runSql_numbers_placeholders
    {D : Type} (connection_query : D -> string -> list JsVal
                                   -> D * (JsVal * JsVal))
    (sql : string) (rest : list JsVal) (id : nat) (w : World D) :
  truthy (dryRun w) = false ->
  sent (snd (Pg.runSql connection_query sql rest (CbVal (JFun id)) w))
  = push (Pg.final_statement sql rest, rest) (sent w)
  /\ (rest <> [] ->
      Pg.final_statement sql rest
      = replace_brackets dq (number_markers sql 1))
  /\ (rest <> [] -> bracket_free sql = true ->
      Pg.final_statement sql rest = number_markers sql 1)
  /\ Pg.final_statement sql [] = replace_brackets dq sql.
Proof.
  intro Hdry.
  assert (Hnum : rest <> [] ->
                 Pg.final_statement sql rest
                 = replace_brackets dq (number_markers sql 1)).
  { intro Hrest. unfold Pg.final_statement.
    destruct rest as [| r rest']; [contradiction |].
    assert (Hlen : (2 <? List.length (JStr sql :: r :: rest') + 1)%nat
                   = true)
      by (apply Nat.ltb_lt; cbn [List.length]; lia).
    rewrite Hlen, number_params_markers. reflexivity. }
  repeat split.
  - unfold Pg.runSql. generalize (Pg.final_statement sql rest) as stmt.
    intro stmt. unfold bind, log_sql, get_dryRun, query. cbn.
    rewrite Hdry. cbn.
    destruct (connection_query (db w) stmt rest) as [d [err result]].
    reflexivity.
  - exact Hnum.
  - intros Hrest Hfree. rewrite (Hnum Hrest).
    apply replace_brackets_bracket_free, bracket_free_number_markers.
    assumption.
Qed.

Lemma pg_runSql_numbers_placeholders_witness :
  sent (snd (Pg.runSql connection_ok "UPDATE [t] SET a = ? WHERE b = ?"
               [JArr [JNum 1; JNum 2]] (CbVal (JFun 0))
               (initial JUndef tt)))
  = [(q "UPDATE `t` SET a = $1 WHERE b = $2", [JArr [JNum 1; JNum 2]])]
  /\ Pg.final_statement "a = ? AND b = ?" [JArr [JNum 1; JNum 2]]
     = "a = $1 AND b = $2".
Proof.
  pose proof (pg_runSql_numbers_placeholders connection_ok
                "UPDATE [t] SET a = ? WHERE b = ?" [JArr [JNum 1; JNum 2]]
                0%nat (initial JUndef tt) eq_refl) as [Hsent _].
  pose proof (pg_runSql_numbers_placeholders connection_ok
                "a = ? AND b = ?" [JArr [JNum 1; JNum 2]]
                0%nat (initial JUndef tt) eq_refl) as [_ [_ [Hfree _]]].
  split.
  - exact Hsent.
  - exact (Hfree ltac:(discriminate) eq_refl).
Defined.

(* --------------------------------------------------------------------- *)
(** ** The quotes of [insert] *)

(** C6: [replace] with a string pattern replaces the first quote only.  A
    value with two quotes comes out with three, not four: the second quote
    is left as it is. *)
Theorem pg_insert_doubles_the_first_quote_only :
  Pg.insert_sql "t" [JStr "a"] [JStr "it's o'k"]
  = q "INSERT INTO `t` (`a`) VALUES ('it''s o'k');"
  /\ count_char "'" "it's o'k" = 2%nat
  /\ count_char "'" (replace_first "'" "''" "it's o'k") = 3%nat.
Proof. repeat split. Qed.

(* --------------------------------------------------------------------- *)
(** ** [removeIndex] of the MySQL driver without a table name *)

(** C8: called with two arguments of which the second is a function,
    [removeIndex] returns without throwing, builds and logs no statement,
    sends nothing and has not yet called the function: the call waits in
    the queue of [process.nextTick].  On the tick (no other tick waiting)
    the function is called once, with an [Error] that names [tableName] and
    [indexName], and still nothing has reached the connection. *)
Theorem mysql_removeIndex_without_table_name
    {D : Type} (connection_query : D -> string -> list JsVal
                                   -> D * (JsVal * JsVal))
    (name : JsVal) (id : nat) (w : World D) :
  ticks w = [] ->
  let error :=
    JErr (q "Illegal arguments, must provide `tableName` and `indexName`") in
  let '(r, w1) := Mysql.removeIndex connection_query [name; JFun id] w in
  let '(r', w2) := run_tick w1 in
  r = Returned tt
  /\ sent w1 = sent w /\ logged w1 = logged w /\ calls w1 = calls w
  /\ db w1 = db w
  /\ ticks w1 = [(JFun id, [error])]
  /\ r' = Returned tt
  /\ calls w2 = push (id, [error]) (calls w)
  /\ sent w2 = sent w /\ logged w2 = logged w /\ ticks w2 = [].
Proof.
  intro Hticks. cbn. unfold nextTick, run_tick, push. cbn.
  rewrite Hticks. cbn. repeat split.
Qed.

Lemma mysql_removeIndex_without_table_name_witness :
  fst (Mysql.removeIndex connection_ok [JStr "idx"; JFun 3]
         (initial JUndef tt))
  = Returned tt
  /\ calls (snd (Mysql.removeIndex connection_ok [JStr "idx"; JFun 3]
                   (initial JUndef tt)))
     = [].
Proof.
  pose proof (mysql_removeIndex_without_table_name connection_ok
                (JStr "idx") 3%nat (initial JUndef tt) eq_refl) as H.
  cbv zeta in H.
  destruct (Mysql.removeIndex connection_ok [JStr "idx"; JFun 3]
              (initial JUndef tt)) as [r w1].
  destruct (run_tick w1) as [r' w2].
  destruct H as [Hr [_ [_ [Hc _]]]].
  split; [exact Hr | exact Hc].
Defined.

(* --------------------------------------------------------------------- *)
(** ** Dry runs *)

Section DryRun.

Context {D : Type}.
Variable connection_query : D -> string -> list JsVal -> D * (JsVal * JsVal).

(** In dry-run mode [runSql] logs the statement and calls its callback with
    no argument. *)
Lemma pg_runSql_dry (sql : string) (rest : list JsVal) (cb : Callback D)
    (w : World D) :
  truthy (dryRun w) = true ->
  Pg.runSql connection_query sql rest cb w
  = call cb []
      (mkWorld (heap w) (dryRun w) (db w) (sent w)
               (push (Pg.final_statement sql rest, rest) (logged w))
               (calls w) (ticks w)).
Proof.
  intro Hdry. unfold Pg.runSql.
  generalize (Pg.final_statement sql rest) as stmt. intro stmt.
  unfold bind, log_sql, get_dryRun. cbn. rewrite Hdry. reflexivity.
Qed.

Lemma mysql_runSql_dry (sql : string) (rest : list JsVal) (cb : Callback D)
    (w : World D) :
  truthy (dryRun w) = true ->
  Mysql.runSql connection_query sql rest cb w
  = call cb []
      (mkWorld (heap w) (dryRun w) (db w) (sent w)
               (push (replace_brackets "" sql, rest) (logged w))
               (calls w) (ticks w)).
Proof.
  intro Hdry. unfold Mysql.runSql.
  unfold bind, log_sql, get_dryRun. cbn. rewrite Hdry. reflexivity.
Qed.


End DryRun.




(* --------------------------------------------------------------------- *)
(** ** [createMigrationsTable] in dry-run mode *)

(** C7: with [global.dryRun] set, [createMigrationsTable] never gets as
    far as its callback.  [runSql] logs the query for the version and calls
    the function it was given with no argument, and there the read of
    [result.rows] on the missing result throws a [TypeError]: nothing has
    reached the connection, the callback has not been called, and a second
    call ends the same way. *)
Theorem pg_createMigrationsTable_fails_in_dry_run
    {D : Type} (connection_query : D -> string -> list JsVal
                                   -> D * (JsVal * JsVal))
    (Base_mapDataType : Obj -> Completion string)
    (normalizeColumnSpec : JsVal -> JsVal)
    (semver_gte : string -> string -> Completion bool)
    (callback : Callback D) (w : World D) :
  truthy (dryRun w) = true ->
  let createMigrationsTable :=
    Pg.createMigrationsTable connection_query Base_mapDataType
      normalizeColumnSpec semver_gte callback in
  let first := createMigrationsTable w in
  let second := createMigrationsTable (snd first) in
  fst first = Threw (TypeError "Cannot read property of undefined")
  /\ calls (snd first) = calls w
  /\ sent (snd first) = sent w
  /\ db (snd first) = db w
  /\ logged (snd first) = push (Pg.version_query, []) (logged w)
  /\ fst second = Threw (TypeError "Cannot read property of undefined")
  /\ calls (snd second) = calls w
  /\ sent (snd second) = sent w.
Proof.
  intro Hdry.
  assert (Hrun : forall w0, truthy (dryRun w0) = true ->
            Pg.createMigrationsTable connection_query Base_mapDataType
              normalizeColumnSpec semver_gte callback w0
            = (Threw (TypeError "Cannot read property of undefined"),
               mkWorld
                 ((heap w0 ++ [Pg.migrations_columns])
                  ++ [[("columns", JRef (List.length (heap w0)));
                       ("ifNotExists", JBool false)]])%list
                 (dryRun w0) (db w0) (sent w0)
                 (push (Pg.version_query, []) (logged w0)) (calls w0)
                 (ticks w0))).
  { intros w0 H0. unfold Pg.createMigrationsTable.
    unfold bind at 1, alloc at 1.
    unfold bind at 1, alloc at 1.
    cbn [heap dryRun db sent logged calls ticks].
    rewrite pg_runSql_dry by exact H0.
    reflexivity. }
  cbv zeta.
  rewrite (Hrun w Hdry). cbn [fst snd].
  rewrite Hrun by exact Hdry.
  repeat split.
Qed.

Lemma pg_createMigrationsTable_fails_in_dry_run_witness :
  let run :=
    Pg.createMigrationsTable connection_ok base_passthrough
      normalize_shorthand always_recent (CbVal (JFun 0))
      (initial (JBool true) tt) in
  fst run = Threw (TypeError "Cannot read property of undefined")
  /\ calls (snd run) = []
  /\ sent (snd run) = [].
Proof.
  pose proof (pg_createMigrationsTable_fails_in_dry_run connection_ok
                base_passthrough normalize_shorthand always_recent
                (CbVal (JFun 0)) (initial (JBool true) tt) eq_refl)
    as [Hthrow [Hcalls [Hsent _]]].
  split; [exact Hthrow | split; [exact Hcalls | exact Hsent]].
Defined.

(* --------------------------------------------------------------------- *)
(** ** The three steps of [changeColumn] *)

(** C1: when the first statement fails, [setUnique] calls the callback with
    the error and goes on.  The uniqueness and the default statements still
    reach the connection, and the callback is called a second time. *)
Theorem pg_changeColumn_goes_on_after_first_error :
  let w := snd (Pg.changeColumn connection_fails_first "t" "c"
                  [("notNull", JBool true); ("unique", JBool true);
                   ("defaultValue", JNum 1)]
                  (CbVal (JFun 0)) (initial JUndef 0%nat)) in
  sent w
  = [(q "ALTER TABLE `t` ALTER COLUMN `c` SET NOT NULL", []);
     (q "ALTER TABLE `t` ADD CONSTRAINT t_c_unique UNIQUE (`c`)", []);
     (q "ALTER TABLE `t` ALTER COLUMN `c` SET DEFAULT 1", [])]
  /\ calls w
     = [(0%nat, [JErr "first statement failed"]);
        (0%nat, [JNull; JObj [("rows", JArr [])]])].
Proof. split; reflexivity. Qed.

(* --------------------------------------------------------------------- *)
(** ** What [createTable] does to the caller's options *)

Lemma get_del_same (k : string) (o : Obj) : get k (del k o) = JUndef.
Proof.
  induction o as [| [k' v] o IH]; cbn; [reflexivity |].
  destruct (String.eqb_spec k k') as [-> | Hk]; [exact IH |].
  cbn. destruct (String.eqb_spec k k'); [contradiction | exact IH].
Qed.

Lemma get_app_fresh (k : string) (o o' : Obj) :
  ~ In k (List.map fst o) -> get k (o ++ o')%list = get k o'.
Proof.
  induction o as [| [k' v] o IH]; cbn; [reflexivity |].
  intro Hn. destruct (String.eqb_spec k k') as [-> | Hk].
  - exfalso. apply Hn. now left.
  - apply IH. intro Hin. apply Hn. now right.
Qed.

Lemma assign_app_fresh (k : string) (v : JsVal) (o o' : Obj) :
  ~ In k (List.map fst o) ->
  assign k v (o ++ o')%list = (o ++ assign k v o')%list.
Proof.
  induction o as [| [k' v'] o IH]; cbn; [reflexivity |].
  intro Hn. destruct (String.eqb_spec k k') as [-> | Hk].
  - exfalso. apply Hn. now left.
  - rewrite IH; [reflexivity |]. intro Hin. apply Hn. now right.
Qed.

Section Frame.

Context {D : Type}.
Variable connection_query : D -> string -> list JsVal -> D * (JsVal * JsVal).
Variable Base_mapDataType : Obj -> Completion string.
Variable normalizeColumnSpec : JsVal -> JsVal.

Lemma bind_returned {A B} (m : M D A) (f : A -> M D B) (w w' : World D)
    (a : A) :
  m w = (Returned a, w') -> bind m f w = f a w'.
Proof. intro H. unfold bind. rewrite H. reflexivity. Qed.

Lemma deref_lookup (l : loc) (o : Obj) (w : World D) :
  heap w !! l = Some o -> deref l w = (Returned o, w).
Proof. intro H. unfold deref. rewrite H. reflexivity. Qed.

Lemma keys_lookup (c : loc) (o : Obj) (w : World D) :
  heap w !! c = Some o -> Pg.keys c w = (Returned (List.map fst o), w).
Proof.
  intro H. unfold Pg.keys.
  rewrite (bind_returned _ _ _ _ _ (deref_lookup _ _ _ H)). reflexivity.
Qed.

Lemma keeps_heap_bind {A B} (m : M D A) (f : A -> M D B) :
  keeps_heap m -> (forall a, keeps_heap (f a)) -> keeps_heap (bind m f).
Proof.
  intros Hm Hf w. unfold bind. specialize (Hm w).
  destruct (m w) as [[a | e] w1]; cbn in Hm |- *.
  - rewrite Hf. exact Hm.
  - exact Hm.
Qed.

Lemma keeps_heap_ret {A} (a : A) : keeps_heap (D := D) (ret a).
Proof. intro w. reflexivity. Qed.

Lemma keeps_heap_lift {A} (c : Completion A) : keeps_heap (D := D) (lift c).
Proof. intro w. reflexivity. Qed.

Lemma keeps_heap_call (f : JsVal) (args : list JsVal) :
  keeps_heap (call (D := D) (CbVal f) args).
Proof. intro w. destruct f; reflexivity. Qed.

Lemma keeps_heap_query (sql : string) (rest : list JsVal) (f : JsVal) :
  keeps_heap (query connection_query sql rest (CbVal f)).
Proof.
  intro w. unfold query.
  destruct (connection_query (db w) sql rest) as [d [err result]].
  rewrite keeps_heap_call. reflexivity.
Qed.

Lemma keeps_heap_pg_runSql (sql : string) (rest : list JsVal) (f : JsVal) :
  keeps_heap (Pg.runSql connection_query sql rest (CbVal f)).
Proof.
  unfold Pg.runSql. apply keeps_heap_bind; [intro w; reflexivity |].
  intros _. apply keeps_heap_bind; [intro w; reflexivity |].
  intro dry. destruct (truthy dry);
    [apply keeps_heap_call | apply keeps_heap_query].
Qed.

Lemma keeps_heap_for_each {A B} (l : list A) (body : B -> A -> M D B) :
  (forall acc x, keeps_heap (body acc x)) ->
  forall acc, keeps_heap (for_each l acc body).
Proof.
  intro Hbody. induction l as [| x l IH]; intro acc; cbn [for_each].
  - apply keeps_heap_ret.
  - apply keeps_heap_bind; [apply Hbody | intro acc'; apply IH].
Qed.

Lemma keeps_heap_for_in {B} (c : option loc) (acc : B)
    (body : loc -> B -> string -> M D B) :
  (forall c acc x, keeps_heap (body c acc x)) ->
  keeps_heap (Pg.for_in c acc body).
Proof.
  intro Hbody. destruct c as [c |]; cbn [Pg.for_in].
  - apply keeps_heap_bind; [intro w; reflexivity |].
    intro names. apply keeps_heap_for_each. apply Hbody.
  - apply keeps_heap_ret.
Qed.

Lemma keeps_heap_define_column (c : loc) (o : option Obj)
    (columnDefs : list string) (columnName : string) :
  keeps_heap (D := D)
    (Pg.define_column Base_mapDataType c o columnDefs columnName).
Proof.
  unfold Pg.define_column.
  apply keeps_heap_bind; [intro w; reflexivity | intro cs].
  apply keeps_heap_bind; [intro w; reflexivity | intro h].
  apply keeps_heap_bind; [apply keeps_heap_lift | intro spec].
  apply keeps_heap_bind; [apply keeps_heap_lift | intro def].
  apply keeps_heap_ret.
Qed.

Lemma normalize_column_step (c : loc) (k : string) (v : JsVal)
    (todo done : Obj) (acc : list string) (w : World D) :
  heap w !! c = Some (done ++ (k, v) :: todo)%list ->
  ~ In k (List.map fst done) ->
  readable (normalizeColumnSpec v) ->
  exists acc1,
    Pg.normalize_column normalizeColumnSpec c acc k w
    = (Returned acc1,
       with_heap (<[c := (done ++ (k, normalizeColumnSpec v) :: todo)%list]>
                    (heap w)) w).
Proof.
  intros Hc Hfresh [Hu Hn].
  unfold Pg.normalize_column, bind, deref, store, get_heap, lift, prop, ret,
    cbind.
  rewrite Hc. cbn [default from_option]. unfold id.
  rewrite get_app_fresh, assign_app_fresh by assumption.
  cbn [get assign]. rewrite String.eqb_refl.
  cbn [heap].
  destruct (normalizeColumnSpec v); try contradiction;
    cbn [props_of]; eexists; reflexivity.
Qed.

(** The first loop of [createTable], from the columns done so far on: it
    runs to its end and leaves every specification normalized. *)
Lemma normalize_columns_loop (c : loc) (todo done : Obj)
    (acc : list string) (w : World D) :
  heap w !! c = Some (done ++ todo)%list ->
  List.NoDup (List.map fst (done ++ todo)%list) ->
  (forall kv, In kv todo -> readable (normalizeColumnSpec (snd kv))) ->
  exists acc',
    for_each (List.map fst todo) acc (Pg.normalize_column normalizeColumnSpec c)
      w
    = (Returned acc',
       with_heap (<[c := (done ++ normalized normalizeColumnSpec todo)%list]>
                    (heap w)) w).
Proof.
  revert done acc w.
  induction todo as [| [k v] todo IH]; intros done acc w Hc Hnd Hread.
  - exists acc. cbn [List.map for_each normalized ret].
    rewrite list_insert_id by assumption.
    destruct w; reflexivity.
  - assert (Hfresh : ~ In k (List.map fst done)).
    { rewrite List.map_app in Hnd. cbn in Hnd.
      apply NoDup_remove_2 in Hnd. intro Hin. apply Hnd.
      apply in_or_app. now left. }
    assert (Hv : readable (normalizeColumnSpec v))
      by (apply (Hread (k, v)); now left).
    assert (Hlt : (c < length (heap w))%nat)
      by (eapply lookup_lt_Some; eassumption).
    destruct (normalize_column_step c k v todo done acc w Hc Hfresh Hv)
      as [acc1 Hstep].
    cbn [List.map fst for_each].
    rewrite (bind_returned _ _ _ _ _ Hstep).
    destruct (IH (done ++ [(k, normalizeColumnSpec v)])%list acc1
                (with_heap
                   (<[c := (done ++ (k, normalizeColumnSpec v) :: todo)%list]>
                      (heap w)) w)) as [acc' Hloop].
    + cbn [heap with_heap].
      rewrite list_lookup_insert_eq by assumption.
      rewrite <- List.app_assoc. reflexivity.
    + rewrite <- List.app_assoc. cbn [List.app].
      rewrite List.map_app in Hnd |- *. exact Hnd.
    + intros kv Hin. apply Hread. now right.
    + exists acc'. rewrite Hloop. cbn [heap with_heap].
      rewrite list_insert_insert_eq.
      rewrite <- List.app_assoc. reflexivity.
Qed.

End Frame.

(** C10: [createTable] of the PostgreSQL driver writes to the objects of
    its caller.  When [options.columns] is the columns mapping at [c], the
    [columns] key is gone from the options object after the call, every
    specification of the mapping at [c] has been replaced by its normalized
    form, and so the options object is no longer what was passed in.  The
    specifications are taken to normalize to values a property can be read
    on, so that the loop reaches every column. *)
Theorem pg_createTable_mutates_options
    {D : Type} (connection_query : D -> string -> list JsVal
                                   -> D * (JsVal * JsVal))
    (Base_mapDataType : Obj -> Completion string)
    (normalizeColumnSpec : JsVal -> JsVal)
    (tableName : string) (options c : loc) (opts cols : Obj) (id : nat)
    (w : World D) :
  heap w !! options = Some opts ->
  get "columns" opts = JRef c ->
  c <> options ->
  heap w !! c = Some cols ->
  List.NoDup (List.map fst cols) ->
  (forall kv, In kv cols -> readable (normalizeColumnSpec (snd kv))) ->
  let w' := snd (Pg.createTable connection_query Base_mapDataType
                   normalizeColumnSpec tableName options (CbVal (JFun id))
                   w) in
  heap w' !! options = Some (del "columns" opts)
  /\ get "columns" (del "columns" opts) = JUndef
  /\ heap w' !! c = Some (normalized normalizeColumnSpec cols)
  /\ heap w' !! options <> heap w !! options.
Proof.
  intros Hopts Hcols Hne Hc Hnd Hread w'.
  assert (Hlo : (options < length (heap w))%nat)
    by (eapply lookup_lt_Some; eassumption).
  assert (Hlc : (c < length (heap w))%nat)
    by (eapply lookup_lt_Some; eassumption).
  set (w1 := with_heap (<[options := del "columns" opts]> (heap w)) w).
  assert (Hc1 : heap w1 !! c = Some ([] ++ cols)%list).
  { unfold w1. cbn [heap with_heap List.app].
    rewrite list_lookup_insert_ne by congruence. exact Hc. }
  destruct (normalize_columns_loop normalizeColumnSpec c cols [] [] w1
              Hc1 Hnd Hread) as [pks Hloop].
  cbn [List.app] in Hloop.
  assert (Hfor : Pg.for_in (Some c) []
                   (Pg.normalize_column normalizeColumnSpec) w1
                 = (Returned pks,
                    with_heap (<[c := normalized normalizeColumnSpec cols]>
                                 (heap w1)) w1)).
  { unfold Pg.for_in.
    erewrite bind_returned by (apply keys_lookup; exact Hc1).
    exact Hloop. }
  assert (Hheap : heap w'
                  = <[c := normalized normalizeColumnSpec cols]>
                      (<[options := del "columns" opts]> (heap w))).
  { unfold w', Pg.createTable.
    rewrite (bind_returned _ _ _ _ _ (deref_lookup _ _ _ Hopts)).
    rewrite Hcols. cbn [is_undefined negb].
    erewrite bind_returned by reflexivity.
    cbn [Pg.enumerable].
    erewrite bind_returned by reflexivity.
    erewrite bind_returned by (exact Hfor).
    match goal with
    | |- heap (snd (?m ?w2)) = _ => assert (Hk : keeps_heap m)
    end.
    { destruct (1 <? List.length pks)%nat;
        (apply keeps_heap_bind;
         [apply keeps_heap_for_in; intros;
          apply keeps_heap_define_column
         | intro defs; apply keeps_heap_pg_runSql]). }
    rewrite Hk. reflexivity. }
  assert (Hafter : heap w' !! options = Some (del "columns" opts)).
  { rewrite Hheap.
    rewrite list_lookup_insert_ne by congruence.
    apply list_lookup_insert_eq. assumption. }
  repeat split.
  - exact Hafter.
  - apply get_del_same.
  - rewrite Hheap. apply list_lookup_insert_eq.
    rewrite length_insert. assumption.
  - rewrite Hafter, Hopts. intro Heq. injection Heq as Heq.
    pose proof (get_del_same "columns" opts) as Hdel.
    rewrite Heq, Hcols in Hdel. discriminate.
Qed.

Lemma pg_createTable_mutates_options_witness :
  let w := mkWorld [[("columns", JRef 1%nat); ("ifNotExists", JBool true)];
                    [("id", JStr data_type.INTEGER);
                     ("name", JObj [("type", JStr data_type.STRING)])]]
                   JUndef tt [] [] [] [] in
  let w' := snd (Pg.createTable connection_ok base_passthrough
                   normalize_shorthand "t" 0%nat (CbVal (JFun 0)) w) in
  heap w' !! 0%nat = Some [("ifNotExists", JBool true)]
  /\ heap w' !! 1%nat
     = Some [("id", JObj [("type", JStr data_type.INTEGER)]);
             ("name", JObj [("type", JStr data_type.STRING)])].
Proof.
  intros w w'.
  assert (Hread : forall kv : string * JsVal,
            In kv [("id", JStr data_type.INTEGER);
                   ("name", JObj [("type", JStr data_type.STRING)])] ->
            readable (normalize_shorthand (snd kv))).
  { intros kv [<- | [<- | []]]; split; discriminate. }
  assert (Hnd : List.NoDup
                  (List.map fst
                     [("id", JStr data_type.INTEGER);
                      ("name", JObj [("type", JStr data_type.STRING)])])).
  { repeat constructor; cbn; intuition discriminate. }
  pose proof (pg_createTable_mutates_options connection_ok base_passthrough
                normalize_shorthand "t" 0%nat 1%nat
                [("columns", JRef 1%nat); ("ifNotExists", JBool true)]
                [("id", JStr data_type.INTEGER);
                 ("name", JObj [("type", JStr data_type.STRING)])]
                0%nat w eq_refl eq_refl ltac:(discriminate) eq_refl
                Hnd Hread) as [H0 [_ [H1 _]]].
  split; [exact H0 | exact H1].
Defined.

(* --------------------------------------------------------------------- *)
(** ** [createMigrationsTable] creates the table once *)

Section Idempotence.

Context {D : Type}.
Variable connection_query : D -> string -> list JsVal -> D * (JsVal * JsVal).
Variable Base_mapDataType : Obj -> Completion string.
Variable normalizeColumnSpec : JsVal -> JsVal.
Variable semver_gte : string -> string -> Completion bool.

(** How many migrations tables the schema behind the connection has. *)
Variable tables : D -> nat.

(** The base driver leaves a specification given as an object as it is. *)
Hypothesis normalize_object :
  forall o, normalizeColumnSpec (JObj o) = JObj o.

(** The server tells its version, and the version test does not throw on
    what it tells. *)
Hypothesis version_answered :
  forall d, exists err result newer,
    connection_query d Pg.version_query [] = (d, (err, result))
    /\ truthy err = false
    /\ forall h,
         Pg.version_allows_if_not_exists semver_gte h result
         = Returned newer.

(** The metadata query reads the schema and lists the table exactly when it
    is there. *)
Hypothesis exists_answered :
  forall d, exists err rows,
    connection_query d Pg.exists_query []
    = (d, (err, JObj [("rows", JArr rows)]))
    /\ truthy err = false
    /\ (rows = [] <-> tables d = 0%nat).

(** Creating the table in a schema that has none succeeds and leaves
    one. *)
Hypothesis create_answered :
  forall d b, tables d = 0%nat ->
    exists d' err result,
      connection_query d (create_migrations_sql b) [] = (d', (err, result))
      /\ truthy err = false
      /\ tables d' = 1%nat.

(** Outside dry-run mode [runSql] logs the statement and hands it to the
    connection. *)
Lemma pg_runSql_live (sql : string) (rest : list JsVal) (cb : Callback D)
    (w : World D) :
  truthy (dryRun w) = false ->
  Pg.runSql connection_query sql rest cb w
  = query connection_query (Pg.final_statement sql rest) rest cb
      (mkWorld (heap w) (dryRun w) (db w) (sent w)
               (push (Pg.final_statement sql rest, rest) (logged w))
               (calls w) (ticks w)).
Proof.
  intro Hdry. unfold Pg.runSql.
  generalize (Pg.final_statement sql rest) as stmt. intro stmt.
  unfold bind, log_sql, get_dryRun. cbn. rewrite Hdry. reflexivity.
Qed.

Lemma normalize_column_fixed (c : loc) (k : string) (o : Obj) (cs : Obj)
    (acc : list string) (w : World D) :
  heap w !! c = Some cs ->
  get k cs = JObj o ->
  assign k (JObj o) cs = cs ->
  Pg.normalize_column normalizeColumnSpec c acc k w
  = (Returned (if truthy (get "primaryKey" o) then push k acc else acc), w).
Proof using normalize_object.
  intros Hc Hk Hfix.
  unfold Pg.normalize_column.
  rewrite (bind_returned _ _ _ _ _ (deref_lookup _ _ _ Hc)).
  rewrite Hk, normalize_object, Hfix.
  unfold bind, store, get_heap, lift, prop, ret, cbind. cbn.
  rewrite list_insert_id by assumption.
  destruct w; reflexivity.
Qed.

Lemma define_column_fixed (c : loc) (k : string) (o : Obj) (cs : Obj)
    (options : option Obj) (def : string) (defs : list string)
    (w : World D) :
  heap w !! c = Some cs ->
  get k cs = JObj o ->
  Pg.createColumnDef Base_mapDataType k o options = Returned def ->
  Pg.define_column Base_mapDataType c options defs k w
  = (Returned (push def defs), w).
Proof.
  intros Hc Hk Hdef.
  unfold Pg.define_column.
  rewrite (bind_returned _ _ _ _ _ (deref_lookup _ _ _ Hc)).
  rewrite Hk.
  unfold bind, get_heap, lift, ret. cbn [props_of]. rewrite Hdef.
  reflexivity.
Qed.

(** [createTable] on the options of [createMigrationsTable]: the columns
    stay as they are, the [columns] key goes, and the statement is handed
    to [runSql]. *)
Lemma createTable_migrations (c o : loc) (b : bool) (f : JsVal)
    (w : World D) :
  c <> o ->
  heap w !! c = Some Pg.migrations_columns ->
  heap w !! o = Some [("columns", JRef c); ("ifNotExists", JBool b)] ->
  Pg.createTable connection_query Base_mapDataType normalizeColumnSpec
    "migrations" o (CbVal f) w
  = Pg.runSql connection_query (create_migrations_sql b) [] (CbVal f)
      (with_heap (<[o := [("ifNotExists", JBool b)]]> (heap w)) w).
Proof using normalize_object.
  intros Hne Hc Ho.
  set (w1 := with_heap (<[o := [("ifNotExists", JBool b)]]> (heap w)) w).
  assert (Hc1 : heap w1 !! c = Some Pg.migrations_columns).
  { unfold w1. cbn [heap with_heap].
    rewrite list_lookup_insert_ne by congruence. exact Hc. }
  assert (Hloop1 : Pg.for_in (Some c) []
                     (Pg.normalize_column normalizeColumnSpec) w1
                   = (Returned ["id"], w1)).
  { unfold Pg.for_in.
    rewrite (bind_returned _ _ _ _ _ (keys_lookup _ _ _ Hc1)).
    cbn [List.map fst Pg.migrations_columns for_each].
    do 3 (erewrite bind_returned
            by (eapply normalize_column_fixed;
                [exact Hc1 | reflexivity | reflexivity])).
    reflexivity. }
  assert (Hloop2 : Pg.for_in (Some c) []
                     (fun c1 =>
                        Pg.define_column Base_mapDataType c1
                          (Some [("emitPrimaryKey", JBool true)])) w1
                   = (Returned
                        [q "`id`   SERIAL PRIMARY KEY NOT NULL";
                         q "`name` VARCHAR (255) NOT NULL";
                         q "`run_on` TIMESTAMP  NOT NULL"], w1)).
  { unfold Pg.for_in.
    rewrite (bind_returned _ _ _ _ _ (keys_lookup _ _ _ Hc1)).
    cbn [List.map fst Pg.migrations_columns for_each].
    do 3 (erewrite bind_returned
            by (eapply define_column_fixed;
                [exact Hc1 | reflexivity | reflexivity])).
    reflexivity. }
  unfold Pg.createTable.
  rewrite (bind_returned _ _ _ _ _ (deref_lookup _ _ _ Ho)).
  cbn [get String.eqb Ascii.eqb Bool.eqb is_undefined negb del].
  erewrite bind_returned by reflexivity.
  cbn [Pg.enumerable].
  erewrite bind_returned by reflexivity.
  erewrite bind_returned by (exact Hloop1).
  cbn [List.length Nat.ltb Nat.leb].
  erewrite bind_returned by (exact Hloop2).
  destruct b; reflexivity.
Qed.


Lemma index_is_not_length (z : Z) :
  String.eqb "length" (string_of_Z z) = false.
Proof.
  unfold string_of_Z.
  destruct (Z.to_int z) as [d | d]; cbn [NilZero.string_of_int];
    destruct d; reflexivity.
Qed.

Lemma get_length_indexed (i : nat) (items : list JsVal) (v : JsVal) :
  get "length" (indexed i items ++ [("length", v)])%list = v.
Proof.
  revert i. induction items as [| x items IH]; intro i; [reflexivity |].
  cbn [indexed List.app get]. rewrite index_is_not_length. apply IH.
Qed.

(** The test [result.rows && result.rows.length < 1] on an array of
    rows. *)
Lemma rows_length (h : Heap) (rows : list JsVal) :
  prop h (JArr rows) "length" = Returned (JNum (Z.of_nat (List.length rows))).
Proof. unfold prop. cbn [props_of cbind]. rewrite get_length_indexed. reflexivity. Qed.

Lemma on_exists_answer (o : loc) (cb : Callback D) (err : JsVal)
    (rows : list JsVal) (w : World D) :
  truthy err = false ->
  Pg.on_exists connection_query Base_mapDataType normalizeColumnSpec o cb
    [err; JObj [("rows", JArr rows)]] w
  = match rows with
    | [] => Pg.createTable connection_query Base_mapDataType
              normalizeColumnSpec "migrations" o cb w
    | _ :: _ => call cb [] w
    end.
Proof.
  intro Herr. unfold Pg.on_exists. cbn [arg nth]. rewrite Herr.
  erewrite bind_returned by reflexivity.
  erewrite bind_returned by reflexivity.
  cbn [get String.eqb Ascii.eqb Bool.eqb truthy].
  erewrite bind_returned
    by (erewrite bind_returned by (unfold lift; rewrite rows_length;
                                   reflexivity);
        reflexivity).
  destruct rows; [reflexivity |].
  cbn [lt_num to_number List.length].
  replace (Z.of_nat (S (List.length rows)) <? 1) with false
    by (symmetry; apply Z.ltb_ge; lia).
  reflexivity.
Qed.

Lemma on_version_answer (c o : loc) (cb : Callback D) (err result : JsVal)
    (newer : bool) (w : World D) :
  truthy err = false ->
  (forall h, Pg.version_allows_if_not_exists semver_gte h result
             = Returned newer) ->
  truthy (dryRun w) = false ->
  heap w !! o = Some [("columns", JRef c); ("ifNotExists", JBool false)] ->
  Pg.on_version connection_query Base_mapDataType normalizeColumnSpec
    semver_gte o cb [err; result] w
  = query connection_query Pg.exists_query []
      (CbFun (Pg.on_exists connection_query Base_mapDataType
                normalizeColumnSpec o cb))
      (mkWorld (<[o := [("columns", JRef c); ("ifNotExists", JBool newer)]]>
                  (heap w))
               (dryRun w) (db w) (sent w)
               (push (Pg.exists_query, []) (logged w)) (calls w) (ticks w)).
Proof.
  intros Herr Hnewer Hdry Ho.
  unfold Pg.on_version. cbn [arg nth]. rewrite Herr.
  erewrite bind_returned by reflexivity.
  erewrite bind_returned by (unfold lift; rewrite Hnewer; reflexivity).
  destruct newer.
  - erewrite bind_returned
      by (rewrite (bind_returned _ _ _ _ _ (deref_lookup _ _ _ Ho));
          reflexivity).
    rewrite pg_runSql_live by exact Hdry.
    reflexivity.
  - erewrite bind_returned by reflexivity.
    rewrite pg_runSql_live by exact Hdry.
    rewrite list_insert_id by assumption.
    reflexivity.
Qed.

(** One call of [createMigrationsTable] outside dry-run mode: the two
    queries, then the creation exactly when the schema has no migrations
    table. *)
Lemma createMigrationsTable_outcome (id : nat) (w : World D) :
  truthy (dryRun w) = false ->
  let run :=
    Pg.createMigrationsTable connection_query Base_mapDataType
      normalizeColumnSpec semver_gte (CbVal (JFun id)) w in
  let queries :=
    push (Pg.exists_query, []) (push (Pg.version_query, []) (sent w)) in
  fst run = Returned tt
  /\ dryRun (snd run) = dryRun w
  /\ (tables (db w) <> 0%nat ->
      sent (snd run) = queries
      /\ db (snd run) = db w
      /\ calls (snd run) = push (id, []) (calls w))
  /\ (tables (db w) = 0%nat ->
      exists newer err result,
        sent (snd run) = push (create_migrations_sql newer, []) queries
        /\ tables (db (snd run)) = 1%nat
        /\ truthy err = false
        /\ calls (snd run) = push (id, [err; result]) (calls w)).
Proof using All.
  intros Hdry run queries.
  set (c := List.length (heap w)).
  set (o := List.length (heap w ++ [Pg.migrations_columns])%list).
  set (h := ((heap w ++ [Pg.migrations_columns])
             ++ [[("columns", JRef c); ("ifNotExists", JBool false)]])%list).
  assert (Hco : c <> o)
    by (unfold c, o; rewrite List.length_app; cbn; lia).
  assert (Hc : h !! c = Some Pg.migrations_columns).
  { unfold h, c. rewrite lookup_app_l
      by (rewrite List.length_app; cbn; lia).
    apply list_lookup_middle. reflexivity. }
  assert (Ho : h !! o
               = Some [("columns", JRef c); ("ifNotExists", JBool false)]).
  { unfold h, o. apply list_lookup_middle. reflexivity. }
  assert (Hlo : (o < length h)%nat) by (eapply lookup_lt_Some; exact Ho).
  destruct (version_answered (db w))
    as (err & result & newer & Hq & Herr & Hnewer).
  destruct (exists_answered (db w)) as (err2 & rows & Hq2 & Herr2 & Hrows).
  set (w2 := mkWorld
               (<[o := [("columns", JRef c); ("ifNotExists", JBool newer)]]> h)
               (dryRun w) (db w) queries
               (push (Pg.exists_query, [])
                     (push (Pg.version_query, []) (logged w)))
               (calls w) (ticks w)).
  assert (Hrun : run
                 = match rows with
                   | [] =>
                       Pg.createTable connection_query Base_mapDataType
                         normalizeColumnSpec "migrations" o (CbVal (JFun id))
                         w2
                   | _ :: _ => call (CbVal (JFun id)) [] w2
                   end).
  { subst run. unfold Pg.createMigrationsTable.
    erewrite bind_returned by reflexivity.
    erewrite bind_returned by reflexivity.
    rewrite pg_runSql_live by exact Hdry.
    change (Pg.final_statement Pg.version_query []) with Pg.version_query.
    unfold query at 1. cbn [db].
    rewrite Hq. cbn [call].
    erewrite on_version_answer;
      [| exact Herr | exact Hnewer | exact Hdry | exact Ho].
    unfold query at 1. cbn [db].
    rewrite Hq2. cbn [call].
    rewrite on_exists_answer by exact Herr2.
    reflexivity. }
  clearbody run. subst run.
  destruct rows as [| row rows].
  - assert (Hnone : tables (db w) = 0%nat) by (apply Hrows; reflexivity).
    destruct (create_answered (db w) newer Hnone)
      as (d' & err3 & result3 & Hq3 & Herr3 & Hone).
    assert (Hrun : Pg.createTable connection_query Base_mapDataType
                     normalizeColumnSpec "migrations" o (CbVal (JFun id)) w2
                   = (Returned tt,
                      mkWorld (<[o := [("ifNotExists", JBool newer)]]>
                                 (heap w2))
                              (dryRun w) d'
                              (push (create_migrations_sql newer, []) queries)
                              (push (create_migrations_sql newer, [])
                                    (logged w2))
                              (push (id, [err3; result3]) (calls w))
                              (ticks w))).
    { erewrite (createTable_migrations c o newer);
        [| exact Hco
         | cbn [heap w2]; rewrite list_lookup_insert_ne by congruence;
           exact Hc
         | cbn [heap w2]; apply list_lookup_insert_eq; exact Hlo].
      rewrite pg_runSql_live by exact Hdry.
      replace (Pg.final_statement (create_migrations_sql newer) [])
        with (create_migrations_sql newer) by (destruct newer; reflexivity).
      unfold query. cbn [db with_heap w2].
      rewrite Hq3. reflexivity. }
    rewrite Hrun. cbn [fst snd dryRun sent db calls].
    split; [reflexivity |]. split; [reflexivity |]. split.
    + intro Hsome. contradiction.
    + intros _. exists newer, err3, result3. repeat split; assumption.
  - assert (Hsome : tables (db w) <> 0%nat)
      by (intro Hz; apply Hrows in Hz; discriminate).
    cbn [call fst snd dryRun sent db calls w2].
    split; [reflexivity |]. split; [reflexivity |]. split.
    + intros _. repeat split.
    + intro Hz. contradiction.
Qed.

(** X24: outside dry-run mode [createMigrationsTable] is idempotent.  On
    a connection that answers its queries, it asks for the version, then
    for the table, and hands a CREATE TABLE to the connection only when the
    answer lists no table; when the table is there it sends the two queries
    only and calls the callback with no argument, so with no error.  Called
    twice on a schema with at most one migrations table, it leaves exactly
    one, and the second call creates nothing and reports no error. *)
Theorem pg_createMigrationsTable_idempotent (id1 id2 : nat) (w : World D) :
  truthy (dryRun w) = false ->
  (tables (db w) <= 1)%nat ->
  let first :=
    Pg.createMigrationsTable connection_query Base_mapDataType
      normalizeColumnSpec semver_gte (CbVal (JFun id1)) w in
  let second :=
    Pg.createMigrationsTable connection_query Base_mapDataType
      normalizeColumnSpec semver_gte (CbVal (JFun id2)) (snd first) in
  let queries (s : list (string * list JsVal)) :=
    push (Pg.exists_query, []) (push (Pg.version_query, []) s) in
  (tables (db w) = 1%nat ->
   sent (snd first) = queries (sent w)
   /\ calls (snd first) = push (id1, []) (calls w))
  /\ (tables (db w) = 0%nat ->
      exists newer err result,
        sent (snd first)
        = push (create_migrations_sql newer, []) (queries (sent w))
        /\ truthy err = false
        /\ calls (snd first) = push (id1, [err; result]) (calls w))
  /\ fst first = Returned tt
  /\ tables (db (snd first)) = 1%nat
  /\ fst second = Returned tt
  /\ sent (snd second) = queries (sent (snd first))
  /\ calls (snd second) = push (id2, []) (calls (snd first))
  /\ tables (db (snd second)) = 1%nat.
Proof using All.
  intros Hdry Hle first second queries.
  destruct (createMigrationsTable_outcome id1 w Hdry)
    as (Hret1 & Hdry1 & Hpresent1 & Habsent1).
  fold first in Hret1, Hdry1, Hpresent1, Habsent1.
  assert (Hone : tables (db (snd first)) = 1%nat).
  { destruct (Nat.eq_dec (tables (db w)) 0%nat) as [Hz | Hnz].
    - destruct (Habsent1 Hz) as (newer & err & result & _ & Ht & _).
      exact Ht.
    - destruct (Hpresent1 Hnz) as (_ & Hdb & _). rewrite Hdb. lia. }
  assert (Hdry' : truthy (dryRun (snd first)) = false)
    by (rewrite Hdry1; exact Hdry).
  destruct (createMigrationsTable_outcome id2 (snd first) Hdry')
    as (Hret2 & _ & Hpresent2 & _).
  fold second in Hret2, Hpresent2.
  destruct Hpresent2 as (Hsent2 & Hdb2 & Hcalls2); [lia |].
  split; [| split; [| split; [| split; [| split; [| split; [| split]]]]]].
  - intro H1. destruct Hpresent1 as (Hs & _ & Hc); [lia |].
    split; assumption.
  - intro H0. destruct (Habsent1 H0) as (newer & err & result & Hs & _ & He & Hc).
    exists newer, err, result. repeat split; assumption.
  - exact Hret1.
  - exact Hone.
  - exact Hret2.
  - exact Hsent2.
  - exact Hcalls2.
  - rewrite Hdb2. exact Hone.
Qed.

End Idempotence.

Lemma pg_createMigrationsTable_idempotent_witness :
  let first :=
    Pg.createMigrationsTable toy_database base_passthrough
      normalize_shorthand always_recent (CbVal (JFun 1))
      (initial JUndef 0%nat) in
  let second :=
    Pg.createMigrationsTable toy_database base_passthrough
      normalize_shorthand always_recent (CbVal (JFun 2)) (snd first) in
  db (snd first) = 1%nat
  /\ db (snd second) = 1%nat
  /\ calls (snd second) = push (2%nat, []) (calls (snd first)).
Proof.
  intros first second.
  assert (Hversion : forall d, exists err result newer,
            toy_database d Pg.version_query [] = (d, (err, result))
            /\ truthy err = false
            /\ forall h,
                 Pg.version_allows_if_not_exists always_recent h result
                 = Returned newer).
  { intro d. eexists JNull, _, true. repeat split. }
  assert (Hexists : forall d, exists err rows,
            toy_database d Pg.exists_query []
            = (d, (err, JObj [("rows", JArr rows)]))
            /\ truthy err = false
            /\ (rows = [] <-> d = 0%nat)).
  { intro d. eexists JNull, _. split; [reflexivity |].
    split; [reflexivity |]. destruct d; cbn; split; congruence. }
  assert (Hcreate : forall (d : nat) (b : bool), d = 0%nat ->
            exists d' err result,
              toy_database d (create_migrations_sql b) []
              = (d', (err, result))
              /\ truthy err = false
              /\ d' = 1%nat).
  { intros d b ->. eexists 1%nat, JNull, _.
    destruct b; repeat split. }
  pose proof (pg_createMigrationsTable_idempotent toy_database
                base_passthrough normalize_shorthand always_recent
                (fun d => d) (fun o => eq_refl) Hversion Hexists Hcreate
                1%nat 2%nat (initial JUndef 0%nat) eq_refl
                (Nat.le_0_l 1))
    as (_ & _ & _ & H1 & _ & _ & H2 & H3).
  repeat split; assumption.
Defined.

(* ===================================================================== *)
(** * Further properties of the drivers *)
(* ===================================================================== *)

(* --------------------------------------------------------------------- *)
(** ** [changeColumn] of the PostgreSQL driver, step by step *)

Section ChangeColumn.

Context {D : Type}.
Variable connection_query : D -> string -> list JsVal -> D * (JsVal * JsVal).

(** X1: when the nullability statement and the uniqueness statement (if
    there is one) succeed, [changeColumn] sends the nullability, the
    uniqueness and the default statement in this order, one after the
    answer to the other, and calls the callback exactly once, with the
    answer to the default statement, error or not. *)
Theorem pg_changeColumn_in_sequence
    (tableName columnName : string) (columnSpec : Obj) (id : nat)
    (w : World D) (d1 d2 d3 : D) (e1 r1 e2 r2 e3 r3 : JsVal) :
  truthy (dryRun w) = false ->
  connection_query (db w)
    (Pg.final_statement (pg_nullability_sql tableName columnName columnSpec)
       []) []
  = (d1, (e1, r1)) ->
  truthy e1 = false ->
  match pg_uniqueness_sql tableName columnName columnSpec with
  | Some sql => connection_query d1 (Pg.final_statement sql []) []
  | None => (d1, (JNull, JUndef))
  end = (d2, (e2, r2)) ->
  truthy e2 = false ->
  connection_query d2
    (Pg.final_statement (pg_default_sql tableName columnName columnSpec) [])
    []
  = (d3, (e3, r3)) ->
  let run := Pg.changeColumn connection_query tableName columnName columnSpec
               (CbVal (JFun id)) w in
  fst run = Returned tt
  /\ sent (snd run)
     = (sent w
        ++ [pg_dispatched (pg_nullability_sql tableName columnName columnSpec)]
        ++ match pg_uniqueness_sql tableName columnName columnSpec with
           | Some sql => [pg_dispatched sql]
           | None => []
           end
        ++ [pg_dispatched (pg_default_sql tableName columnName columnSpec)])%list
  /\ calls (snd run) = push (id, [e3; r3]) (calls w)
  /\ db (snd run) = d3.
Proof.
  intros Hdry H1 He1 H2 He2 H3 run.
  unfold pg_dispatched.
  eassert (E1 : pg_nullability_sql tableName columnName columnSpec = _)
    by (unfold pg_nullability_sql; reflexivity).
  eassert (E3 : pg_default_sql tableName columnName columnSpec = _)
    by (unfold pg_default_sql; reflexivity).
  eassert (Eu : pg_uniqueness_sql tableName columnName columnSpec = _)
    by (unfold pg_uniqueness_sql; reflexivity).
  rewrite E1 in H1 |- *. rewrite E3 in H3 |- *. rewrite Eu in H2 |- *.
  clear E1 E3 Eu.
  destruct (strict_eq_bool (get "unique" columnSpec) true) eqn:Ht;
    [| destruct (strict_eq_bool (get "unique" columnSpec) false) eqn:Hf].
  - eassert (Hrun : run = (Returned tt, _)).
    { subst run. unfold Pg.changeColumn.
      rewrite pg_runSql_live by exact Hdry.
      unfold query at 1. cbn [heap dryRun db sent logged calls ticks].
      rewrite H1. cbn [call arg nth].
      rewrite He1. unfold bind at 1. cbn [ret]. rewrite Ht.
      rewrite pg_runSql_live by exact Hdry.
      unfold query at 1. cbn [heap dryRun db sent logged calls ticks].
      rewrite H2. cbn [call arg nth]. rewrite He2.
      rewrite pg_runSql_live by exact Hdry.
      unfold query. cbn [heap dryRun db sent logged calls ticks].
      rewrite H3. reflexivity. }
    rewrite Hrun. unfold push. cbn [fst snd sent calls db].
    rewrite <- !List.app_assoc. repeat split.
  - eassert (Hrun : run = (Returned tt, _)).
    { subst run. unfold Pg.changeColumn.
      rewrite pg_runSql_live by exact Hdry.
      unfold query at 1. cbn [heap dryRun db sent logged calls ticks].
      rewrite H1. cbn [call arg nth].
      rewrite He1. unfold bind at 1. cbn [ret]. rewrite Ht, Hf.
      rewrite pg_runSql_live by exact Hdry.
      unfold query at 1. cbn [heap dryRun db sent logged calls ticks].
      rewrite H2. cbn [call arg nth]. rewrite He2.
      rewrite pg_runSql_live by exact Hdry.
      unfold query. cbn [heap dryRun db sent logged calls ticks].
      rewrite H3. reflexivity. }
    rewrite Hrun. unfold push. cbn [fst snd sent calls db].
    rewrite <- !List.app_assoc. repeat split.
  - injection H2 as <- <- <-.
    eassert (Hrun : run = (Returned tt, _)).
    { subst run. unfold Pg.changeColumn.
      rewrite pg_runSql_live by exact Hdry.
      unfold query at 1. cbn [heap dryRun db sent logged calls ticks].
      rewrite H1. cbn [call arg nth].
      rewrite He1. unfold bind at 1. cbn [ret]. rewrite Ht, Hf.
      cbn [arg nth truthy].
      rewrite pg_runSql_live by exact Hdry.
      unfold query. cbn [heap dryRun db sent logged calls ticks].
      rewrite H3. reflexivity. }
    rewrite Hrun. unfold push. cbn [fst snd sent calls db].
    rewrite <- !List.app_assoc. repeat split.
Qed.

(** X2: when the nullability statement succeeds and the uniqueness
    statement fails, the default statement is never sent and the callback
    is called exactly once, with the error of the uniqueness statement. *)
Theorem pg_changeColumn_halts_on_uniqueness_error
    (tableName columnName : string) (columnSpec : Obj) (id : nat)
    (w : World D) (sql : string) (d1 d2 : D) (e1 r1 e2 r2 : JsVal) :
  truthy (dryRun w) = false ->
  connection_query (db w)
    (Pg.final_statement (pg_nullability_sql tableName columnName columnSpec)
       []) []
  = (d1, (e1, r1)) ->
  truthy e1 = false ->
  pg_uniqueness_sql tableName columnName columnSpec = Some sql ->
  connection_query d1 (Pg.final_statement sql []) [] = (d2, (e2, r2)) ->
  truthy e2 = true ->
  let run := Pg.changeColumn connection_query tableName columnName columnSpec
               (CbVal (JFun id)) w in
  fst run = Returned tt
  /\ sent (snd run)
     = push (pg_dispatched sql)
         (push (pg_dispatched
                  (pg_nullability_sql tableName columnName columnSpec))
               (sent w))
  /\ calls (snd run) = push (id, [e2]) (calls w)
  /\ db (snd run) = d2.
Proof.
  intros Hdry H1 He1 Hu H2 He2 run.
  unfold pg_dispatched.
  eassert (E1 : pg_nullability_sql tableName columnName columnSpec = _)
    by (unfold pg_nullability_sql; reflexivity).
  eassert (Eu : pg_uniqueness_sql tableName columnName columnSpec = _)
    by (unfold pg_uniqueness_sql; reflexivity).
  rewrite E1 in H1 |- *. rewrite Eu in Hu. clear E1 Eu.
  assert (Hsome : forall a b : string, Some a = Some b -> a = b)
    by (intros a b [= ->]; reflexivity).
  eassert (Hrun : run = (Returned tt, _)).
  { subst run. unfold Pg.changeColumn.
    rewrite pg_runSql_live by exact Hdry.
    unfold query at 1. cbn [heap dryRun db sent logged calls ticks].
    rewrite H1. cbn [call arg nth].
    rewrite He1. unfold bind at 1. cbn [ret].
    destruct (strict_eq_bool (get "unique" columnSpec) true);
      [| destruct (strict_eq_bool (get "unique" columnSpec) false);
         [| discriminate]];
      apply Hsome in Hu; rewrite Hu;
      rewrite pg_runSql_live by exact Hdry;
      unfold query; cbn [heap dryRun db sent logged calls ticks];
      rewrite H2; cbn [call arg nth];
      rewrite He2; reflexivity. }
  rewrite Hrun. repeat split.
Qed.

End ChangeColumn.

Lemma pg_changeColumn_in_sequence_witness :
  sent (snd (Pg.changeColumn connection_ok "t" "c"
               [("notNull", JBool true); ("unique", JBool false)]
               (CbVal (JFun 0)) (initial JUndef tt)))
  = [(q "ALTER TABLE `t` ALTER COLUMN `c` SET NOT NULL", []);
     (q "ALTER TABLE `t` DROP CONSTRAINT t_c_unique", []);
     (q "ALTER TABLE `t` ALTER COLUMN `c` DROP DEFAULT", [])].
Proof.
  exact (proj1 (proj2
    (pg_changeColumn_in_sequence connection_ok "t" "c"
       [("notNull", JBool true); ("unique", JBool false)] 0%nat
       (initial JUndef tt) tt tt tt
       JNull (JObj [("rows", JArr [])]) JNull (JObj [("rows", JArr [])])
       JNull (JObj [("rows", JArr [])])
       eq_refl eq_refl eq_refl eq_refl eq_refl eq_refl))).
Defined.

Lemma pg_changeColumn_halts_on_uniqueness_error_witness :
  calls (snd (Pg.changeColumn (connection_fails_nth 1) "t" "c"
                [("unique", JBool true); ("defaultValue", JNum 1)]
                (CbVal (JFun 0)) (initial JUndef 0%nat)))
  = [(0%nat, [JErr "statement failed"])].
Proof.
  exact (proj1 (proj2 (proj2
    (pg_changeColumn_halts_on_uniqueness_error (connection_fails_nth 1)
       "t" "c" [("unique", JBool true); ("defaultValue", JNum 1)] 0%nat
       (initial JUndef 0%nat) _ 1%nat 2%nat
       JNull (JObj [("rows", JArr [])]) (JErr "statement failed") JUndef
       eq_refl eq_refl eq_refl eq_refl eq_refl eq_refl)))).
Defined.

(* --------------------------------------------------------------------- *)
(** ** [insert] of the PostgreSQL driver *)

Lemma string_app_assoc (a b c : string) : (a ++ b) ++ c = a ++ b ++ c.
Proof. induction a as [| x a IH]; cbn; [reflexivity | now rewrite IH]. Qed.

(** The loop of [insert] from the index [length C1] on: what it appends to
    [columnNames] and to [values]. *)
Lemma insert_loop (C2 : list JsVal) :
  forall (V2 C1 V1 : list JsVal) (a b : string),
  List.length C1 = List.length V1 ->
  List.length C2 = List.length V2 ->
  fold_left (Pg.insert_step (C1 ++ C2) (V1 ++ V2))
            (seq (List.length C1) (List.length C2)) (a, b)
  = (a ++ join "," (quoted C2), b ++ join "," (List.map insert_value V2)).
Proof.
  induction C2 as [| c C2 IH]; intros V2 C1 V1 a b H1 H2.
  - destruct V2; [| discriminate]. cbn. now rewrite !append_empty_r.
  - destruct V2 as [| v V2]; [discriminate |].
    injection H2 as H2.
    cbn [List.length seq fold_left].
    assert (Hstep :
      Pg.insert_step (C1 ++ c :: C2) (V1 ++ v :: V2) (a, b) (List.length C1)
      = if (List.length C2 =? 0)%nat
        then (a ++ (dq ++ to_string c ++ dq), b ++ insert_value v)
        else ((a ++ (dq ++ to_string c ++ dq)) ++ ",",
              (b ++ insert_value v) ++ ",")).
    { unfold Pg.insert_step, arg.
      rewrite nth_middle.
      replace (nth (List.length C1) (V1 ++ v :: V2) JUndef) with v
        by (rewrite H1; symmetry; apply nth_middle).
      rewrite List.length_app. cbn [List.length].
      replace (Z.of_nat (List.length C1)
               =? Z.of_nat (List.length C1 + S (List.length C2)) - 1)
        with (List.length C2 =? 0)%nat.
      2:{ destruct (Nat.eqb_spec (List.length C2) 0) as [E | E].
          - symmetry. apply Z.eqb_eq. lia.
          - symmetry. apply Z.eqb_neq. lia. }
      unfold insert_value.
      destruct (String.eqb (typeof v) "string");
        destruct (List.length C2 =? 0)%nat; reflexivity. }
    rewrite Hstep. clear Hstep.
    destruct C2 as [| c' C2].
    + destruct V2; [| discriminate]. cbn. reflexivity.
    + cbn [List.length Nat.eqb].
      replace (C1 ++ c :: c' :: C2)%list with ((C1 ++ [c]) ++ c' :: C2)%list
        by (rewrite <- List.app_assoc; reflexivity).
      replace (V1 ++ v :: V2)%list with ((V1 ++ [v]) ++ V2)%list
        by (rewrite <- List.app_assoc; reflexivity).
      replace (S (List.length C1)) with (List.length (C1 ++ [c]))
        by (rewrite List.length_app; cbn; lia).
      change (S (List.length C2)) with (List.length (c' :: C2)).
      rewrite IH.
      * destruct V2 as [| v' V2]; [discriminate |].
        cbn [quoted List.map join].
        f_equal; rewrite !string_app_assoc; reflexivity.
      * rewrite !List.length_app. cbn. lia.
      * exact H2.
Qed.

(** X3: called with arrays of different lengths, [insert] builds no
    statement: it calls the callback at once and once, with an [Error],
    logs nothing and sends nothing, in dry-run mode or not. *)
Theorem pg_insert_rejects_uneven_arrays
    {D : Type} (connection_query : D -> string -> list JsVal
                                   -> D * (JsVal * JsVal))
    (tableName : string) (columnNameArray valueArray : list JsVal)
    (id : nat) (w : World D) :
  List.length columnNameArray <> List.length valueArray ->
  Pg.insert connection_query tableName columnNameArray valueArray
    (CbVal (JFun id)) w
  = (Returned tt,
     mkWorld (heap w) (dryRun w) (db w) (sent w) (logged w)
       (push (id, [JErr "The number of columns does not match the number of values."])
             (calls w))
       (ticks w)).
Proof.
  intro Hlen. unfold Pg.insert.
  apply Nat.eqb_neq in Hlen. rewrite Hlen. reflexivity.
Qed.

Lemma pg_insert_rejects_uneven_arrays_witness :
  calls (snd (Pg.insert connection_ok "t" [JStr "a"; JStr "b"] [JNum 1]
                (CbVal (JFun 0)) (initial JUndef tt)))
  = [(0%nat,
      [JErr "The number of columns does not match the number of values."])]
  /\ sent (snd (Pg.insert connection_ok "t" [JStr "a"; JStr "b"] [JNum 1]
                (CbVal (JFun 0)) (initial JUndef tt))) = [].
Proof.
  rewrite (pg_insert_rejects_uneven_arrays connection_ok "t"
             [JStr "a"; JStr "b"] [JNum 1] 0%nat (initial JUndef tt)
             ltac:(discriminate)).
  split; reflexivity.
Defined.

(** X4: given as many values as columns, [insert] builds one statement
    that lists the column names, each between double quotes, and then the
    values, in the order of the arrays and separated by commas with no
    comma after the last; a string value stands between single quotes with
    its first quote doubled, any other value as it prints. *)
Theorem pg_insert_lists_columns_and_values
    (tableName : string) (columnNameArray valueArray : list JsVal) :
  List.length columnNameArray = List.length valueArray ->
  Pg.insert_sql tableName columnNameArray valueArray
  = "INSERT INTO " ++ dq ++ tableName ++ dq ++ " ("
    ++ join "," (quoted columnNameArray) ++ ") VALUES ("
    ++ join "," (List.map insert_value valueArray) ++ ");".
Proof.
  intro Hlen. unfold Pg.insert_sql.
  pose proof (insert_loop columnNameArray valueArray [] [] "(" "VALUES ("
                eq_refl Hlen) as Hloop.
  cbn [app List.length] in Hloop. rewrite Hloop.
  assert (E : util_format (q "INSERT INTO `%s` ") [JStr tableName]
              = "INSERT INTO " ++ dq ++ tableName ++ dq ++ " ")
    by reflexivity.
  rewrite E. rewrite !string_app_assoc. reflexivity.
Qed.

Lemma pg_insert_lists_columns_and_values_witness :
  Pg.insert_sql "t" [JStr "a"; JStr "b"] [JNum 1; JStr "o'k"]
  = q "INSERT INTO `t` (`a`,`b`) VALUES (1,'o''k');".
Proof.
  exact (pg_insert_lists_columns_and_values "t" [JStr "a"; JStr "b"]
           [JNum 1; JStr "o'k"] eq_refl).
Defined.

(* --------------------------------------------------------------------- *)
(** ** Errors on the way to the migrations table *)

Section Migrations.

Context {D : Type}.
Variable connection_query : D -> string -> list JsVal -> D * (JsVal * JsVal).
Variable Base_mapDataType : Obj -> Completion string.
Variable normalizeColumnSpec : JsVal -> JsVal.
Variable semver_gte : string -> string -> Completion bool.

(** X5: when the query for the version fails, [createMigrationsTable]
    hands the error to the callback, once, and stops: the query for the
    table and the CREATE TABLE are never sent. *)
Theorem pg_createMigrationsTable_reports_version_error
    (id : nat) (w : World D) (d1 : D) (e1 r1 : JsVal) :
  truthy (dryRun w) = false ->
  connection_query (db w) Pg.version_query [] = (d1, (e1, r1)) ->
  truthy e1 = true ->
  let run :=
    Pg.createMigrationsTable connection_query Base_mapDataType
      normalizeColumnSpec semver_gte (CbVal (JFun id)) w in
  fst run = Returned tt
  /\ sent (snd run) = push (Pg.version_query, []) (sent w)
  /\ calls (snd run) = push (id, [e1]) (calls w)
  /\ db (snd run) = d1.
Proof.
  intros Hdry Hq He run.
  eassert (Hrun : run = (Returned tt, _)).
  { subst run. unfold Pg.createMigrationsTable.
    erewrite bind_returned by reflexivity.
    erewrite bind_returned by reflexivity.
    rewrite pg_runSql_live by exact Hdry.
    change (Pg.final_statement Pg.version_query []) with Pg.version_query.
    unfold query at 1. cbn [heap dryRun db sent logged calls ticks].
    rewrite Hq. cbn [call].
    unfold Pg.on_version. cbn [arg nth]. rewrite He. reflexivity. }
  rewrite Hrun. repeat split.
Qed.

(** X6: when the version has been told and the query for the table fails,
    [createMigrationsTable] hands that error to the callback, once, and
    sends no CREATE TABLE: the two queries are all the connection gets. *)
Theorem pg_createMigrationsTable_reports_lookup_error
    (id : nat) (w : World D) (d1 d2 : D) (e1 r1 e2 r2 : JsVal)
    (newer : bool) :
  truthy (dryRun w) = false ->
  connection_query (db w) Pg.version_query [] = (d1, (e1, r1)) ->
  truthy e1 = false ->
  (forall h, Pg.version_allows_if_not_exists semver_gte h r1
             = Returned newer) ->
  connection_query d1 Pg.exists_query [] = (d2, (e2, r2)) ->
  truthy e2 = true ->
  let run :=
    Pg.createMigrationsTable connection_query Base_mapDataType
      normalizeColumnSpec semver_gte (CbVal (JFun id)) w in
  fst run = Returned tt
  /\ sent (snd run)
     = push (Pg.exists_query, []) (push (Pg.version_query, []) (sent w))
  /\ calls (snd run) = push (id, [e2]) (calls w)
  /\ db (snd run) = d2.
Proof.
  intros Hdry Hq1 He1 Hnewer Hq2 He2 run.
  set (c := List.length (heap w)).
  set (o := List.length (heap w ++ [Pg.migrations_columns])%list).
  eassert (Hrun : run = (Returned tt, _)).
  { subst run. unfold Pg.createMigrationsTable.
    erewrite bind_returned by reflexivity.
    erewrite bind_returned by reflexivity.
    rewrite pg_runSql_live by exact Hdry.
    change (Pg.final_statement Pg.version_query []) with Pg.version_query.
    unfold query at 1. cbn [heap dryRun db sent logged calls ticks].
    rewrite Hq1. cbn [call].
    erewrite (on_version_answer _ _ _ _ c o);
      [| exact He1 | exact Hnewer | exact Hdry
       | cbn [heap]; apply list_lookup_middle; reflexivity].
    unfold query at 1. cbn [heap dryRun db sent logged calls ticks].
    rewrite Hq2. cbn [call].
    unfold Pg.on_exists. cbn [arg nth]. rewrite He2. reflexivity. }
  rewrite Hrun. repeat split.
Qed.

End Migrations.

Lemma pg_createMigrationsTable_reports_version_error_witness :
  calls (snd (Pg.createMigrationsTable (connection_fails_nth 0)
                base_passthrough normalize_shorthand always_recent
                (CbVal (JFun 0)) (initial JUndef 0%nat)))
  = [(0%nat, [JErr "statement failed"])].
Proof.
  exact (proj1 (proj2 (proj2
    (pg_createMigrationsTable_reports_version_error (connection_fails_nth 0)
       base_passthrough normalize_shorthand always_recent 0%nat
       (initial JUndef 0%nat) 1%nat (JErr "statement failed") JUndef
       eq_refl eq_refl eq_refl)))).
Defined.

Lemma pg_createMigrationsTable_reports_lookup_error_witness :
  sent (snd (Pg.createMigrationsTable (connection_fails_nth 1)
               base_passthrough normalize_shorthand always_recent
               (CbVal (JFun 0)) (initial JUndef 0%nat)))
  = [(Pg.version_query, []); (Pg.exists_query, [])].
Proof.
  exact (proj1 (proj2
    (pg_createMigrationsTable_reports_lookup_error (connection_fails_nth 1)
       base_passthrough normalize_shorthand always_recent 0%nat
       (initial JUndef 0%nat) 1%nat 2%nat
       JNull (JObj [("rows", JArr [])]) (JErr "statement failed") JUndef
       false eq_refl eq_refl eq_refl (fun h => eq_refl) eq_refl eq_refl))).
Defined.

(* --------------------------------------------------------------------- *)
(** ** Column definitions built without options *)

Section Builders.

Context {D : Type}.
Variable connection_query : D -> string -> list JsVal -> D * (JsVal * JsVal).
Variable Base_mapDataType : Obj -> Completion string.
Variable normalizeColumnSpec : JsVal -> JsVal.

(** X7: [changeColumn] of the MySQL driver calls [createColumnDef] without
    options, so for a specification that sets [primaryKey] the read of
    [options.emitPrimaryKey] throws a [TypeError]: nothing is logged or
    sent and the callback is never called. *)
Theorem mysql_changeColumn_throws_on_primary_key
    (tableName columnName : string) (columnSpec : Obj) (t : string)
    (callback : Callback D) (w : World D) :
  truthy (get "primaryKey" columnSpec) = true ->
  Mysql.mapDataType Base_mapDataType columnSpec = Returned t ->
  Mysql.changeColumn connection_query Base_mapDataType tableName columnName
    columnSpec callback w
  = (Threw (TypeError "Cannot read property of undefined"), w).
Proof.
  intros Hpk Ht.
  unfold Mysql.changeColumn, bind, lift, Mysql.createColumnDef.
  rewrite Ht. cbn [cbind].
  unfold Mysql.createColumnConstraint, Mysql.constraint_tokens.
  rewrite Hpk. reflexivity.
Qed.

(** X8: so does [addColumn] of the PostgreSQL driver: for a specification
    whose normal form sets [primaryKey] it throws a [TypeError] before
    anything is logged or sent, and the callback is never called. *)
Theorem pg_addColumn_throws_on_primary_key
    (tableName columnName : string) (columnSpec : JsVal) (spec : Obj)
    (t : string) (callback : Callback D) (w : World D) :
  props_of (heap w) (normalizeColumnSpec columnSpec) = Returned spec ->
  truthy (get "primaryKey" spec) = true ->
  Pg.mapDataType Base_mapDataType spec = Returned t ->
  Pg.addColumn connection_query Base_mapDataType normalizeColumnSpec
    tableName columnName columnSpec callback w
  = (Threw (TypeError "Cannot read property of undefined"), w).
Proof.
  intros Hspec Hpk Ht.
  unfold Pg.addColumn, bind, get_heap, lift. rewrite Hspec.
  unfold Pg.createColumnDef. rewrite Ht.
  unfold Pg.createColumnConstraint, Pg.constraint_tokens.
  rewrite Hpk.
  destruct (truthy (get "autoIncrement" spec)); reflexivity.
Qed.

End Builders.

Lemma mysql_changeColumn_throws_on_primary_key_witness :
  Mysql.changeColumn connection_ok base_passthrough "t" "c"
    [("type", JStr "INTEGER"); ("primaryKey", JBool true)]
    (CbVal (JFun 0)) (initial JUndef tt)
  = (Threw (TypeError "Cannot read property of undefined"),
     initial JUndef tt).
Proof.
  exact (mysql_changeColumn_throws_on_primary_key connection_ok
           base_passthrough "t" "c"
           [("type", JStr "INTEGER"); ("primaryKey", JBool true)] "INTEGER"
           (CbVal (JFun 0)) (initial JUndef tt) eq_refl eq_refl).
Defined.

Lemma pg_addColumn_throws_on_primary_key_witness :
  Pg.addColumn connection_ok base_passthrough normalize_shorthand "t" "c"
    (JObj [("type", JStr "INTEGER"); ("primaryKey", JBool true)])
    (CbVal (JFun 0)) (initial JUndef tt)
  = (Threw (TypeError "Cannot read property of undefined"),
     initial JUndef tt).
Proof.
  exact (pg_addColumn_throws_on_primary_key connection_ok base_passthrough
           normalize_shorthand "t" "c"
           (JObj [("type", JStr "INTEGER"); ("primaryKey", JBool true)])
           [("type", JStr "INTEGER"); ("primaryKey", JBool true)] "INTEGER"
           (CbVal (JFun 0)) (initial JUndef tt) eq_refl eq_refl eq_refl).
Defined.

(* --------------------------------------------------------------------- *)
(** ** Optional arguments of [addIndex] and [addForeignKey] *)

Section OptionalArguments.

Context {D : Type}.
Variable connection_query : D -> string -> list JsVal -> D * (JsVal * JsVal).

(** X9: [addIndex] of the PostgreSQL driver takes its callback in the place
    of [opts]: called with a function there and no fifth argument, or with
    [opts] undefined, it does what it does for options without [unique] and
    that function as the callback.  A column given alone stands for the
    list of that one column. *)
Theorem pg_addIndex_optional_arguments
    (tableName indexName column : string) (columns opts callback : JsVal)
    (id : nat) (w : World D) :
  Pg.addIndex connection_query tableName indexName columns (JFun id) JUndef w
  = Pg.addIndex connection_query tableName indexName columns (JObj [])
      (JFun id) w
  /\ Pg.addIndex connection_query tableName indexName columns JUndef
       (JFun id) w
     = Pg.addIndex connection_query tableName indexName columns (JObj [])
         (JFun id) w
  /\ Pg.addIndex connection_query tableName indexName (JStr column) opts
       callback w
     = Pg.addIndex connection_query tableName indexName
         (JArr [JStr column]) opts callback w.
Proof. repeat split. Qed.

(** X10: [addForeignKey], in either driver, reads [opts.onUpdate] before
    anything else: with [opts] undefined it throws a [TypeError], whatever
    the callback, and nothing is logged or sent.  With the callback in the
    place of [opts] it does what it does for empty options and that
    callback. *)
Theorem addForeignKey_reads_opts
    (tableName foreignKeyName parentTableName : string)
    (columns parentColumns callback : JsVal) (id : nat) (w : World D) :
  Pg.addForeignKey connection_query tableName foreignKeyName columns
    parentTableName parentColumns JUndef callback w
  = (Threw (TypeError "Cannot read property of undefined"), w)
  /\ Mysql.addForeignKey connection_query tableName foreignKeyName columns
       parentTableName parentColumns JUndef callback w
     = (Threw (TypeError "Cannot read property of undefined"), w)
  /\ Pg.addForeignKey connection_query tableName foreignKeyName columns
       parentTableName parentColumns (JFun id) JUndef w
     = Pg.addForeignKey connection_query tableName foreignKeyName columns
         parentTableName parentColumns (JObj []) (JFun id) w
  /\ Mysql.addForeignKey connection_query tableName foreignKeyName columns
       parentTableName parentColumns (JFun id) JUndef w
     = Mysql.addForeignKey connection_query tableName foreignKeyName columns
         parentTableName parentColumns (JObj []) (JFun id) w.
Proof. repeat split. Qed.

End OptionalArguments.





(* --------------------------------------------------------------------- *)
(** ** Queries and what becomes of their answers *)

Section Answers.

Context {D : Type}.
Variable connection_query : D -> string -> list JsVal -> D * (JsVal * JsVal).

Lemma mysql_runSql_live (sql : string) (rest : list JsVal) (cb : Callback D)
    (w : World D) :
  truthy (dryRun w) = false ->
  Mysql.runSql connection_query sql rest cb w
  = query connection_query (replace_brackets "" sql) rest cb
      (mkWorld (heap w) (dryRun w) (db w) (sent w)
               (push (replace_brackets "" sql, rest) (logged w))
               (calls w) (ticks w)).
Proof.
  intro Hdry. unfold Mysql.runSql.
  generalize (replace_brackets "" sql) as stmt. intro stmt.
  unfold bind, log_sql, get_dryRun. cbn. rewrite Hdry. reflexivity.
Qed.

(** X12: when the connection answers [all] of the PostgreSQL driver with
    an error and no result, the read of [result.rows] throws a [TypeError]:
    the statement has been sent, and the callback is never called, so the
    error of the connection never reaches it. *)
Theorem pg_all_throws_without_result
    (sql : string) (callback : Callback D) (w : World D) (d : D)
    (err : JsVal) :
  connection_query (db w) (replace_brackets dq sql) [] = (d, (err, JUndef)) ->
  Pg.all connection_query sql callback w
  = (Threw (TypeError "Cannot read property of undefined"),
     mkWorld (heap w) (dryRun w) d
       (push (replace_brackets dq sql, []) (sent w))
       (logged w) (calls w) (ticks w)).
Proof.
  intro Hq. unfold Pg.all, query. rewrite Hq. reflexivity.
Qed.

(** X13: [startMigration] and [endMigration] drop the answer of the
    connection: whatever it is, error or not, the callback is called once,
    with no argument after BEGIN and with [null] after COMMIT. *)
Theorem pg_migration_brackets_drop_the_answer
    (id : nat) (w : World D) (d : D) (err result : JsVal) :
  truthy (dryRun w) = false ->
  (connection_query (db w) "BEGIN;" [] = (d, (err, result)) ->
   Pg.startMigration connection_query (CbVal (JFun id)) w
   = (Returned tt,
      mkWorld (heap w) (dryRun w) d (push ("BEGIN;", []) (sent w))
        (push ("BEGIN;", []) (logged w)) (push (id, []) (calls w))
        (ticks w)))
  /\ (connection_query (db w) "COMMIT;" [] = (d, (err, result)) ->
      Pg.endMigration connection_query (CbVal (JFun id)) w
      = (Returned tt,
         mkWorld (heap w) (dryRun w) d (push ("COMMIT;", []) (sent w))
           (push ("COMMIT;", []) (logged w)) (push (id, [JNull]) (calls w))
           (ticks w))).
Proof.
  intro Hdry. split; intro Hq.
  - unfold Pg.startMigration. rewrite pg_runSql_live by exact Hdry.
    change (Pg.final_statement "BEGIN;" []) with "BEGIN;".
    unfold query. cbn [heap dryRun db sent logged calls ticks].
    rewrite Hq. reflexivity.
  - unfold Pg.endMigration. rewrite pg_runSql_live by exact Hdry.
    change (Pg.final_statement "COMMIT;" []) with "COMMIT;".
    unfold query. cbn [heap dryRun db sent logged calls ticks].
    rewrite Hq. reflexivity.
Qed.

(** X14: [addMigrationRecord] of the MySQL driver binds the name and the
    date as parameters: the text of the statement it sends is the same for
    every name, and the callback gets the answer of the connection. *)
Theorem mysql_addMigrationRecord_binds_its_values
    (name : JsVal) (formattedDate : string) (id : nat) (w : World D)
    (d : D) (err result : JsVal) :
  truthy (dryRun w) = false ->
  connection_query (db w)
    "INSERT INTO migrations (name, run_on) VALUES (?, ?)"
    [JArr [name; JStr formattedDate]]
  = (d, (err, result)) ->
  Mysql.addMigrationRecord connection_query name formattedDate
    (CbVal (JFun id)) w
  = (Returned tt,
     mkWorld (heap w) (dryRun w) d
       (push ("INSERT INTO migrations (name, run_on) VALUES (?, ?)",
              [JArr [name; JStr formattedDate]]) (sent w))
       (push ("INSERT INTO migrations (name, run_on) VALUES (?, ?)",
              [JArr [name; JStr formattedDate]]) (logged w))
       (push (id, [err; result]) (calls w)) (ticks w)).
Proof.
  intros Hdry Hq. unfold Mysql.addMigrationRecord.
  rewrite mysql_runSql_live by exact Hdry.
  change (replace_brackets ""
            "INSERT INTO migrations (name, run_on) VALUES (?, ?)")
    with "INSERT INTO migrations (name, run_on) VALUES (?, ?)".
  unfold query. cbn [heap dryRun db sent logged calls ticks].
  rewrite Hq. reflexivity.
Qed.

(** X15: [renameColumn] of the MySQL driver asks for the type of the
    column and, whatever error came with the answer, sends the ALTER TABLE
    with the [COLUMN_TYPE] of the first row; the callback gets the answer
    to the ALTER TABLE.  Only the ALTER TABLE is logged. *)
Theorem mysql_renameColumn_keeps_the_column_type
    (tableName oldColumnName newColumnName : string) (id : nat)
    (w : World D) (d1 d2 : D) (e1 r1 row columnType e2 r2 : JsVal) :
  truthy (dryRun w) = false ->
  connection_query (db w)
    (replace_brackets "" (mysql_column_type_sql tableName oldColumnName)) []
  = (d1, (e1, r1)) ->
  prop (heap w) r1 "0" = Returned row ->
  prop (heap w) row "COLUMN_TYPE" = Returned columnType ->
  connection_query d1
    (replace_brackets ""
       (mysql_rename_sql tableName oldColumnName newColumnName columnType))
    []
  = (d2, (e2, r2)) ->
  Mysql.renameColumn connection_query tableName oldColumnName newColumnName
    (CbVal (JFun id)) w
  = (Returned tt,
     mkWorld (heap w) (dryRun w) d2
       (push (mysql_dispatched
                (mysql_rename_sql tableName oldColumnName newColumnName
                   columnType))
          (push (mysql_dispatched
                   (mysql_column_type_sql tableName oldColumnName))
                (sent w)))
       (push (mysql_dispatched
                (mysql_rename_sql tableName oldColumnName newColumnName
                   columnType))
             (logged w))
       (push (id, [e2; r2]) (calls w)) (ticks w)).
Proof.
  intros Hdry H1 Hrow Hty H2.
  unfold mysql_dispatched.
  eassert (E1 : mysql_column_type_sql tableName oldColumnName = _)
    by (unfold mysql_column_type_sql; reflexivity).
  eassert (E2 : mysql_rename_sql tableName oldColumnName newColumnName
                  columnType = _)
    by (unfold mysql_rename_sql; reflexivity).
  rewrite E1 in H1 |- *. rewrite E2 in H2 |- *. clear E1 E2.
  unfold Mysql.renameColumn, Mysql.all.
  unfold query at 1. rewrite H1. cbn [call arg nth].
  unfold bind at 1, get_heap at 1.
  cbn [heap dryRun db sent logged calls ticks].
  unfold bind at 1, lift at 1. rewrite Hrow.
  unfold bind at 1, lift at 1. rewrite Hty.
  rewrite mysql_runSql_live by exact Hdry.
  unfold query. cbn [heap dryRun db sent logged calls ticks].
  rewrite H2. reflexivity.
Qed.

(** X16: when the answer to its query has no result or no row, as for a
    column that does not exist, [renameColumn] of the MySQL driver throws a
    [TypeError]: the query has been sent, no ALTER TABLE is logged or sent,
    and the callback is never called. *)
Theorem mysql_renameColumn_throws_without_the_column
    (tableName oldColumnName newColumnName : string)
    (callback : Callback D) (w : World D) (d1 : D) (e1 r1 : JsVal) :
  connection_query (db w)
    (replace_brackets "" (mysql_column_type_sql tableName oldColumnName)) []
  = (d1, (e1, r1)) ->
  r1 = JUndef \/ r1 = JArr [] ->
  Mysql.renameColumn connection_query tableName oldColumnName newColumnName
    callback w
  = (Threw (TypeError "Cannot read property of undefined"),
     mkWorld (heap w) (dryRun w) d1
       (push (mysql_dispatched
                (mysql_column_type_sql tableName oldColumnName))
             (sent w))
       (logged w) (calls w) (ticks w)).
Proof.
  intros H1 Hr.
  unfold mysql_dispatched.
  eassert (E1 : mysql_column_type_sql tableName oldColumnName = _)
    by (unfold mysql_column_type_sql; reflexivity).
  rewrite E1 in H1 |- *. clear E1.
  unfold Mysql.renameColumn, Mysql.all.
  unfold query at 1. rewrite H1. cbn [call arg nth].
  destruct Hr as [-> | ->]; reflexivity.
Qed.

End Answers.

Lemma pg_all_throws_without_result_witness :
  fst (Pg.all (connection_fails_nth 0) "SELECT 1" (CbVal (JFun 0))
         (initial JUndef 0%nat))
  = Threw (TypeError "Cannot read property of undefined")
  /\ calls (snd (Pg.all (connection_fails_nth 0) "SELECT 1"
                   (CbVal (JFun 0)) (initial JUndef 0%nat))) = [].
Proof.
  rewrite (pg_all_throws_without_result (connection_fails_nth 0) "SELECT 1"
             (CbVal (JFun 0)) (initial JUndef 0%nat) 1%nat
             (JErr "statement failed") eq_refl).
  split; reflexivity.
Defined.

Lemma pg_migration_brackets_drop_the_answer_witness :
  calls (snd (Pg.startMigration (connection_fails_nth 0) (CbVal (JFun 0))
                (initial JUndef 0%nat)))
  = [(0%nat, [])]
  /\ calls (snd (Pg.endMigration (connection_fails_nth 0) (CbVal (JFun 0))
                   (initial JUndef 0%nat)))
     = [(0%nat, [JNull])].
Proof.
  destruct (pg_migration_brackets_drop_the_answer (connection_fails_nth 0)
              0%nat (initial JUndef 0%nat) 1%nat (JErr "statement failed")
              JUndef eq_refl) as [Hstart Hend].
  rewrite (Hstart eq_refl), (Hend eq_refl).
  split; reflexivity.
Defined.

Lemma mysql_addMigrationRecord_binds_its_values_witness :
  sent (snd (Mysql.addMigrationRecord connection_ok (JStr "001-init")
               "2012-01-01 00:00:00" (CbVal (JFun 0)) (initial JUndef tt)))
  = [("INSERT INTO migrations (name, run_on) VALUES (?, ?)",
      [JArr [JStr "001-init"; JStr "2012-01-01 00:00:00"]])].
Proof.
  rewrite (mysql_addMigrationRecord_binds_its_values connection_ok
             (JStr "001-init") "2012-01-01 00:00:00" 0%nat
             (initial JUndef tt) tt JNull (JObj [("rows", JArr [])])
             eq_refl eq_refl).
  reflexivity.
Defined.

Lemma mysql_renameColumn_keeps_the_column_type_witness :
  sent (snd (Mysql.renameColumn
               (connection_with_rows [JObj [("COLUMN_TYPE", JStr "int(11)")]])
               "t" "a" "b" (CbVal (JFun 0)) (initial JUndef tt)))
  = [("SELECT COLUMN_TYPE FROM INFORMATION_SCHEMA.COLUMNS WHERE TABLE_NAME = 't' AND COLUMN_NAME = 'a'",
      []);
     ("ALTER TABLE t CHANGE a b int(11)", [])].
Proof.
  rewrite (mysql_renameColumn_keeps_the_column_type
             (connection_with_rows [JObj [("COLUMN_TYPE", JStr "int(11)")]])
             "t" "a" "b" 0%nat (initial JUndef tt) tt tt
             JNull (JArr [JObj [("COLUMN_TYPE", JStr "int(11)")]])
             (JObj [("COLUMN_TYPE", JStr "int(11)")]) (JStr "int(11)")
             JNull (JArr [JObj [("COLUMN_TYPE", JStr "int(11)")]])
             eq_refl eq_refl eq_refl eq_refl eq_refl).
  reflexivity.
Defined.

Lemma mysql_renameColumn_throws_without_the_column_witness :
  fst (Mysql.renameColumn (connection_with_rows []) "t" "a" "b"
         (CbVal (JFun 0)) (initial JUndef tt))
  = Threw (TypeError "Cannot read property of undefined").
Proof.
  rewrite (mysql_renameColumn_throws_without_the_column
             (connection_with_rows []) "t" "a" "b" (CbVal (JFun 0))
             (initial JUndef tt) tt JNull (JArr []) eq_refl
             (or_intror eq_refl)).
  reflexivity.
Defined.

(* --------------------------------------------------------------------- *)
(** ** Column definitions *)

(** X17: without [emitPrimaryKey], as for the columns of a table with a
    composite primary key, the constraint clause never holds the
    primary-key marker nor the auto-increment marker (PRIMARY KEY and
    SERIAL for PostgreSQL, PRIMARY KEY and AUTO_INCREMENT for MySQL),
    whatever the specification sets. *)
Theorem no_primary_key_token_without_emitPrimaryKey (spec options : Obj) :
  truthy (get "emitPrimaryKey" options) = false ->
  (exists tokens,
     Pg.constraint_tokens spec (Some options) = Returned tokens
     /\ ~ In (JStr "PRIMARY KEY") tokens
     /\ ~ In (JStr "SERIAL") tokens)
  /\ (exists tokens,
        Mysql.constraint_tokens spec (Some options) = Returned tokens
        /\ ~ In (JStr "PRIMARY KEY") tokens
        /\ ~ In (JStr "AUTO_INCREMENT") tokens).
Proof.
  intro Hemit.
  assert (Hraw : forall s, String.eqb (typeof (get "defaultValue" spec))
                             "string" = false ->
                           get "defaultValue" spec <> JStr s).
  { intros s Hty Heq. rewrite Heq in Hty. discriminate. }
  split.
  - unfold Pg.constraint_tokens. cbn [read_options cbind]. rewrite Hemit.
    destruct (truthy (get "primaryKey" spec)); cbn [cbind];
      destruct (truthy (get "notNull" spec));
      destruct (truthy (get "unique" spec));
      destruct (String.eqb (typeof (get "defaultValue" spec)) "undefined");
      cbn [negb];
      destruct (String.eqb (typeof (get "defaultValue" spec)) "string")
        eqn:Hty;
      (eexists; split; [reflexivity |]);
      unfold push; cbn [app In];
      split; intro H; repeat (destruct H as [H | H]); try discriminate H;
        try contradiction; try exact (Hraw _ eq_refl H).
  - unfold Mysql.constraint_tokens. cbn [read_options cbind]. rewrite Hemit.
    destruct (truthy (get "unsigned" spec));
      destruct (truthy (get "primaryKey" spec)); cbn [cbind];
      destruct (truthy (get "notNull" spec));
      destruct (truthy (get "unique" spec));
      destruct (truthy (get "null" spec));
      destruct (truthy (get "defaultValue" spec));
      destruct (String.eqb (typeof (get "defaultValue" spec)) "string")
        eqn:Hty;
      (eexists; split; [reflexivity |]);
      unfold push; cbn [app In];
      split; intro H; repeat (destruct H as [H | H]); try discriminate H;
        try contradiction; try exact (Hraw _ eq_refl H).
Qed.

Lemma no_primary_key_token_without_emitPrimaryKey_witness :
  (exists tokens,
     Pg.constraint_tokens
       [("primaryKey", JBool true); ("autoIncrement", JBool true);
        ("notNull", JBool true)]
       (Some [("emitPrimaryKey", JBool false)]) = Returned tokens
     /\ ~ In (JStr "PRIMARY KEY") tokens
     /\ ~ In (JStr "SERIAL") tokens)
  /\ (exists tokens,
        Mysql.constraint_tokens
          [("primaryKey", JBool true); ("autoIncrement", JBool true);
           ("notNull", JBool true)]
          (Some [("emitPrimaryKey", JBool false)]) = Returned tokens
        /\ ~ In (JStr "PRIMARY KEY") tokens
        /\ ~ In (JStr "AUTO_INCREMENT") tokens).
Proof.
  exact (no_primary_key_token_without_emitPrimaryKey
           [("primaryKey", JBool true); ("autoIncrement", JBool true);
            ("notNull", JBool true)]
           [("emitPrimaryKey", JBool false)] eq_refl).
Defined.

(** X18: for a column that auto-increments, [createColumnDef] of the
    PostgreSQL driver never asks for the type: the definition is the same
    whatever the base driver would map the specification to, an exception
    included. *)
Theorem pg_auto_increment_ignores_the_type_mapping
    (Base_mapDataType Base_mapDataType' : Obj -> Completion string)
    (name : string) (spec : Obj) (options : option Obj) :
  truthy (get "autoIncrement" spec) = true ->
  Pg.createColumnDef Base_mapDataType name spec options
  = Pg.createColumnDef Base_mapDataType' name spec options.
Proof.
  intro Hauto. unfold Pg.createColumnDef. rewrite Hauto. reflexivity.
Qed.

Lemma pg_auto_increment_ignores_the_type_mapping_witness :
  Pg.createColumnDef base_passthrough "id"
    [("type", JStr "INTEGER"); ("autoIncrement", JBool true)] None
  = Pg.createColumnDef (fun _ => Threw (JErr "no such type")) "id"
      [("type", JStr "INTEGER"); ("autoIncrement", JBool true)] None.
Proof.
  exact (pg_auto_increment_ignores_the_type_mapping base_passthrough
           (fun _ => Threw (JErr "no such type")) "id"
           [("type", JStr "INTEGER"); ("autoIncrement", JBool true)] None
           eq_refl).
Defined.

(** X19: a column without a length that the MySQL driver maps to VARCHAR
    gets the length 255; the PostgreSQL driver gives a STRING column
    without a length no length at all. *)
Theorem default_length_of_a_varchar_column
    (Base_mapDataType : Obj -> Completion string)
    (name : string) (spec : Obj) (options : option Obj)
    (constraint : string) :
  truthy (get "length" spec) = false ->
  (Mysql.mapDataType Base_mapDataType spec = Returned "VARCHAR" ->
   Mysql.createColumnConstraint spec options = Returned constraint ->
   Mysql.createColumnDef Base_mapDataType name spec options
   = Returned (name ++ " VARCHAR (255) " ++ constraint))
  /\ (strict_eq_str (get "type" spec) data_type.STRING = true ->
      truthy (get "autoIncrement" spec) = false ->
      Pg.createColumnConstraint spec options = Returned constraint ->
      Pg.createColumnDef Base_mapDataType name spec options
      = Returned ((dq ++ name ++ dq) ++ " VARCHAR  " ++ constraint)).
Proof.
  intro Hlen. split.
  - intros Hmap Hc.
    assert (Hty : negb (strict_eq_str (get "type" spec) data_type.TEXT)
                  && negb (strict_eq_str (get "type" spec) data_type.BLOB)
                  = true).
    { unfold Mysql.mapDataType in Hmap.
      destruct (strict_eq_str (get "type" spec) data_type.TEXT).
      - repeat match type of Hmap with
               | (if ?b then _ else _) = _ => destruct b
               end; discriminate.
      - destruct (strict_eq_str (get "type" spec) data_type.DATE_TIME);
          [discriminate |].
        destruct (strict_eq_str (get "type" spec) data_type.BLOB);
          [| reflexivity].
        repeat match type of Hmap with
               | (if ?b then _ else _) = _ => destruct b
               end; discriminate. }
    unfold Mysql.createColumnDef. rewrite Hmap. cbn [cbind].
    rewrite Hty, Hlen, Hc. reflexivity.
  - intros Hstr Hauto Hc.
    unfold Pg.createColumnDef, Pg.mapDataType.
    rewrite Hauto, Hstr, Hlen, Hc. reflexivity.
Qed.

Lemma default_length_of_a_varchar_column_witness :
  Mysql.createColumnDef base_varchar "name"
    [("type", JStr "STRING"); ("notNull", JBool true)] None
  = Returned "name VARCHAR (255) NOT NULL"
  /\ Pg.createColumnDef base_varchar "name"
       [("type", JStr "STRING"); ("notNull", JBool true)] None
     = Returned (q "`name` VARCHAR  NOT NULL").
Proof.
  destruct (default_length_of_a_varchar_column base_varchar "name"
              [("type", JStr "STRING"); ("notNull", JBool true)] None
              "NOT NULL" eq_refl) as [Hmysql Hpg].
  split.
  - exact (Hmysql eq_refl eq_refl).
  - exact (Hpg eq_refl eq_refl eq_refl).
Defined.

(* --------------------------------------------------------------------- *)
(** ** What [runSql] does to a statement *)

Lemma count_char_app (c : ascii) (s t : string) :
  count_char c (s ++ t) = (count_char c s + count_char c t)%nat.
Proof. induction s as [| a s IH]; cbn; [reflexivity | rewrite IH; lia]. Qed.

Lemma no_question_mark_uint (d : Decimal.uint) :
  count_char "?" (NilEmpty.string_of_uint d) = 0%nat.
Proof. induction d; cbn; auto. Qed.

Lemma no_question_mark_number (z : Z) :
  count_char "?" (string_of_Z z) = 0%nat.
Proof.
  unfold string_of_Z.
  assert (H : forall d, count_char "?" (NilZero.string_of_uint d) = 0%nat)
    by (intro d; destruct d;
        [reflexivity | apply (no_question_mark_uint (_ _)) ..]).
  destruct (Z.to_int z) as [d | d]; cbn [NilZero.string_of_int];
    [apply H | cbn [count_char]; apply H].
Qed.

Lemma no_question_mark_number_markers (s : string) (k : nat) :
  count_char "?" (number_markers s k) = 0%nat.
Proof.
  revert k. induction s as [| c s IH]; intro k; [reflexivity |].
  cbn [number_markers].
  destruct (Ascii.eqb c "?") eqn:Hc.
  - rewrite !count_char_app, no_question_mark_number, IH. reflexivity.
  - cbn [count_char]. rewrite Hc, IH. reflexivity.
Qed.

Lemma number_markers_without_question_mark (s : string) (k : nat) :
  count_char "?" s = 0%nat -> number_markers s k = s.
Proof.
  induction s as [| c s IH]; [reflexivity |].
  cbn [count_char number_markers].
  destruct (Ascii.eqb c "?"); [discriminate |].
  cbn. intro H. rewrite IH by assumption. reflexivity.
Qed.

Lemma count_char_replace_brackets (c : ascii) (r s : string) :
  is_bracket c = false -> count_char c r = 0%nat ->
  count_char c (replace_brackets r s) = count_char c s.
Proof.
  intros Hc Hr. induction s as [| a s IH]; [reflexivity |].
  cbn [replace_brackets count_char].
  rewrite count_char_app, IH.
  destruct (Ascii.eqb a "[" || Ascii.eqb a "]") eqn:Ha.
  - rewrite Hr.
    destruct (Ascii.eqb_spec a c) as [-> | _]; [| reflexivity].
    unfold is_bracket in Hc. congruence.
  - cbn. lia.
Qed.

Lemma bracket_free_replace_brackets (r s : string) :
  bracket_free r = true -> bracket_free (replace_brackets r s) = true.
Proof.
  intro Hr. induction s as [| a s IH]; [reflexivity |].
  cbn [replace_brackets]. rewrite bracket_free_app, IH.
  destruct (Ascii.eqb a "[" || Ascii.eqb a "]") eqn:Ha.
  - rewrite Hr. reflexivity.
  - cbn. rewrite Ha. reflexivity.
Qed.

(** X20: the statement [runSql] of the PostgreSQL driver hands on holds no
    bracket and, when a parameter was passed, no question mark; without
    parameters it holds as many question marks as the template.  A
    statement that went through the rewriting comes out of it again
    unchanged. *)
Theorem pg_final_statement_is_clean_and_stable
    (sql : string) (r : JsVal) (rest : list JsVal) :
  bracket_free (Pg.final_statement sql rest) = true
  /\ count_char "?" (Pg.final_statement sql (r :: rest)) = 0%nat
  /\ count_char "?" (Pg.final_statement sql []) = count_char "?" sql
  /\ Pg.final_statement (Pg.final_statement sql rest) rest
     = Pg.final_statement sql rest.
Proof.
  assert (Hfree : forall l, bracket_free (Pg.final_statement sql l) = true).
  { intro l. unfold Pg.final_statement.
    apply bracket_free_replace_brackets. reflexivity. }
  assert (Hnum : forall a l,
            Pg.final_statement sql (a :: l)
            = replace_brackets dq (number_markers sql 1)).
  { intros a l. unfold Pg.final_statement.
    assert (Hlen : (2 <? List.length (JStr sql :: a :: l) + 1)%nat = true)
      by (apply Nat.ltb_lt; cbn [List.length]; lia).
    rewrite Hlen, number_params_markers. reflexivity. }
  assert (Hnone : forall a l,
            count_char "?" (Pg.final_statement sql (a :: l)) = 0%nat).
  { intros a l. rewrite Hnum.
    rewrite count_char_replace_brackets by reflexivity.
    apply no_question_mark_number_markers. }
  split; [apply Hfree |]. split; [apply Hnone |]. split.
  - unfold Pg.final_statement. cbn [List.length Nat.add Nat.ltb Nat.leb].
    apply count_char_replace_brackets; reflexivity.
  - destruct rest as [| a l].
    + unfold Pg.final_statement at 1.
      cbn [List.length Nat.add Nat.ltb Nat.leb].
      apply replace_brackets_bracket_free, Hfree.
    + unfold Pg.final_statement at 1.
      assert (Hlen : (2 <? List.length
                             (JStr (Pg.final_statement sql (a :: l))
                                :: a :: l) + 1)%nat = true)
        by (apply Nat.ltb_lt; cbn [List.length]; lia).
      rewrite Hlen, number_params_markers.
      rewrite number_markers_without_question_mark by apply Hnone.
      apply replace_brackets_bracket_free, Hfree.
Qed.

(** X21: outside dry-run mode [runSql] of the MySQL driver logs and sends
    the statement with its brackets taken out and every other character,
    the question marks among them, left as it is, and the callback gets
    the answer of the connection; a statement without brackets passes
    unchanged. *)
Theorem mysql_runSql_strips_the_brackets
    {D : Type} (connection_query : D -> string -> list JsVal
                                   -> D * (JsVal * JsVal))
    (sql : string) (rest : list JsVal) (id : nat) (w : World D) (d : D)
    (err result : JsVal) :
  truthy (dryRun w) = false ->
  connection_query (db w) (replace_brackets "" sql) rest
  = (d, (err, result)) ->
  Mysql.runSql connection_query sql rest (CbVal (JFun id)) w
  = (Returned tt,
     mkWorld (heap w) (dryRun w) d
       (push (replace_brackets "" sql, rest) (sent w))
       (push (replace_brackets "" sql, rest) (logged w))
       (push (id, [err; result]) (calls w)) (ticks w))
  /\ bracket_free (replace_brackets "" sql) = true
  /\ (forall c, is_bracket c = false ->
        count_char c (replace_brackets "" sql) = count_char c sql)
  /\ replace_brackets "" (replace_brackets "" sql) = replace_brackets "" sql.
Proof.
  intros Hdry Hq.
  assert (Hfree : bracket_free (replace_brackets "" sql) = true)
    by (apply bracket_free_replace_brackets; reflexivity).
  split; [| split; [exact Hfree | split]].
  - rewrite mysql_runSql_live by exact Hdry.
    unfold query. cbn [heap dryRun db sent logged calls ticks].
    rewrite Hq. reflexivity.
  - intros c Hc. apply count_char_replace_brackets; [exact Hc | reflexivity].
  - apply replace_brackets_bracket_free, Hfree.
Qed.

Lemma mysql_runSql_strips_the_brackets_witness :
  sent (snd (Mysql.runSql connection_ok "SELECT [a] FROM [t] WHERE b = ?"
               [JArr [JNum 1]] (CbVal (JFun 0)) (initial JUndef tt)))
  = [("SELECT a FROM t WHERE b = ?", [JArr [JNum 1]])].
Proof.
  destruct (mysql_runSql_strips_the_brackets connection_ok
              "SELECT [a] FROM [t] WHERE b = ?" [JArr [JNum 1]] 0%nat
              (initial JUndef tt) tt JNull (JObj [("rows", JArr [])])
              eq_refl eq_refl) as [Hrun _].
  rewrite Hrun. reflexivity.
Defined.

(* --------------------------------------------------------------------- *)
(** ** [createTable] on a bare mapping of columns *)

(** X22: called with the columns themselves as [options], with no
    [columns] key, [createTable] of the PostgreSQL driver writes to that
    object of its caller: every specification in it is replaced by its
    normal form, in dry-run mode as well, and nothing else in the heap
    changes. *)
Theorem pg_createTable_normalizes_bare_columns
    {D : Type} (connection_query : D -> string -> list JsVal
                                   -> D * (JsVal * JsVal))
    (Base_mapDataType : Obj -> Completion string)
    (normalizeColumnSpec : JsVal -> JsVal)
    (tableName : string) (options : loc) (opts : Obj) (id : nat)
    (w : World D) :
  heap w !! options = Some opts ->
  get "columns" opts = JUndef ->
  List.NoDup (List.map fst opts) ->
  (forall kv, In kv opts -> readable (normalizeColumnSpec (snd kv))) ->
  heap (snd (Pg.createTable connection_query Base_mapDataType
               normalizeColumnSpec tableName options (CbVal (JFun id)) w))
  = <[options := normalized normalizeColumnSpec opts]> (heap w).
Proof.
  intros Hopts Hcols Hnd Hread.
  assert (Hc : heap w !! options = Some ([] ++ opts)%list) by exact Hopts.
  destruct (normalize_columns_loop normalizeColumnSpec options opts [] [] w
              Hc Hnd Hread) as [pks Hloop].
  cbn [List.app] in Hloop.
  assert (Hfor : Pg.for_in (Some options) []
                   (Pg.normalize_column normalizeColumnSpec) w
                 = (Returned pks,
                    with_heap (<[options := normalized normalizeColumnSpec
                                              opts]> (heap w)) w)).
  { unfold Pg.for_in.
    erewrite bind_returned by (apply keys_lookup; exact Hopts).
    exact Hloop. }
  unfold Pg.createTable.
  rewrite (bind_returned _ _ _ _ _ (deref_lookup _ _ _ Hopts)).
  rewrite Hcols. cbn [is_undefined negb].
  erewrite bind_returned by reflexivity.
  cbn [Pg.enumerable].
  erewrite bind_returned by reflexivity.
  erewrite bind_returned by (exact Hfor).
  match goal with
  | |- heap (snd (?m ?w2)) = _ => assert (Hk : keeps_heap m)
  end.
  { destruct (1 <? List.length pks)%nat;
      (apply keeps_heap_bind;
       [apply keeps_heap_for_in; intros; apply keeps_heap_define_column
       | intro defs; apply keeps_heap_pg_runSql]). }
  rewrite Hk. reflexivity.
Qed.

Lemma pg_createTable_normalizes_bare_columns_witness :
  heap (snd (Pg.createTable connection_ok base_passthrough
               normalize_shorthand "t" 0%nat (CbVal (JFun 0))
               (mkWorld [[("id", JStr data_type.INTEGER);
                          ("name", JObj [("type", JStr data_type.STRING)])]]
                        JUndef tt [] [] [] [])))
  = [[("id", JObj [("type", JStr data_type.INTEGER)]);
      ("name", JObj [("type", JStr data_type.STRING)])]].
Proof.
  assert (Hread : forall kv : string * JsVal,
            In kv [("id", JStr data_type.INTEGER);
                   ("name", JObj [("type", JStr data_type.STRING)])] ->
            readable (normalize_shorthand (snd kv))).
  { intros kv [<- | [<- | []]]; split; discriminate. }
  assert (Hnd : List.NoDup
                  (List.map fst
                     [("id", JStr data_type.INTEGER);
                      ("name", JObj [("type", JStr data_type.STRING)])])).
  { repeat constructor; cbn; intuition discriminate. }
  exact (pg_createTable_normalizes_bare_columns connection_ok
           base_passthrough normalize_shorthand "t" 0%nat
           [("id", JStr data_type.INTEGER);
            ("name", JObj [("type", JStr data_type.STRING)])]
           0%nat
           (mkWorld [[("id", JStr data_type.INTEGER);
                      ("name", JObj [("type", JStr data_type.STRING)])]]
                    JUndef tt [] [] [] [])
           eq_refl eq_refl Hnd Hread).
Defined.

(* --------------------------------------------------------------------- *)
(** ** Dry runs of the operations with one statement *)

(** X23: with [global.dryRun] set, the operations that build one statement
    and hand it to [runSql] send nothing and call the callback once, with
    no argument: so do [renameTable], [removeColumn], [renameColumn],
    [removeForeignKey], [addIndex] and [startMigration] of the PostgreSQL
    driver and [renameTable], [removeColumn], [removeForeignKey],
    [removeIndex] with its three arguments and [addMigrationRecord] of the
    MySQL driver.  [endMigration] sends nothing either and calls the
    callback with [null]. *)
Theorem dry_run_skips_the_single_statement_operations
    {D : Type} (connection_query : D -> string -> list JsVal
                                   -> D * (JsVal * JsVal))
    (tableName name newName formattedDate : string) (columns : JsVal)
    (opts : Obj) (id : nat) (w : World D) :
  truthy (dryRun w) = true ->
  let callback : Callback D := CbVal (JFun id) in
  dry_outcome id w (Pg.renameTable connection_query tableName newName
                      callback w)
  /\ dry_outcome id w (Pg.removeColumn connection_query tableName name
                         callback w)
  /\ dry_outcome id w (Pg.renameColumn connection_query tableName name
                         newName callback w)
  /\ dry_outcome id w (Pg.removeForeignKey connection_query tableName name
                         callback w)
  /\ dry_outcome id w (Pg.addIndex connection_query tableName name columns
                         (JObj opts) (JFun id) w)
  /\ dry_outcome id w (Pg.startMigration connection_query callback w)
  /\ (let run := Pg.endMigration connection_query callback w in
      fst run = Returned tt /\ sent (snd run) = sent w
      /\ db (snd run) = db w
      /\ calls (snd run) = push (id, [JNull]) (calls w))
  /\ dry_outcome id w (Mysql.renameTable connection_query tableName newName
                         callback w)
  /\ dry_outcome id w (Mysql.removeColumn connection_query tableName name
                         callback w)
  /\ dry_outcome id w (Mysql.removeForeignKey connection_query tableName
                         name callback w)
  /\ dry_outcome id w (Mysql.removeIndex connection_query
                         [JStr tableName; JStr name; JFun id] w)
  /\ dry_outcome id w (Mysql.addMigrationRecord connection_query
                         (JStr name) formattedDate callback w).
Proof.
  intros Hdry callback. subst callback.
  repeat match goal with |- _ /\ _ => split end.
  - unfold Pg.renameTable. rewrite pg_runSql_dry by exact Hdry.
    repeat split.
  - unfold Pg.removeColumn. rewrite pg_runSql_dry by exact Hdry.
    repeat split.
  - unfold Pg.renameColumn. rewrite pg_runSql_dry by exact Hdry.
    repeat split.
  - unfold Pg.removeForeignKey. rewrite pg_runSql_dry by exact Hdry.
    repeat split.
  - unfold Pg.addIndex.
    erewrite bind_returned by reflexivity.
    erewrite bind_returned by reflexivity.
    cbn [truthy]. rewrite pg_runSql_dry by exact Hdry.
    repeat split.
  - unfold Pg.startMigration. rewrite pg_runSql_dry by exact Hdry.
    repeat split.
  - cbv zeta. unfold Pg.endMigration.
    rewrite pg_runSql_dry by exact Hdry. repeat split.
  - unfold Mysql.renameTable. rewrite mysql_runSql_dry by exact Hdry.
    repeat split.
  - unfold Mysql.removeColumn. rewrite mysql_runSql_dry by exact Hdry.
    repeat split.
  - unfold Mysql.removeForeignKey. rewrite mysql_runSql_dry by exact Hdry.
    repeat split.
  - unfold Mysql.removeIndex.
    cbn [List.length Nat.eqb andb arg nth].
    rewrite mysql_runSql_dry by exact Hdry.
    repeat split.
  - unfold Mysql.addMigrationRecord. rewrite mysql_runSql_dry by exact Hdry.
    repeat split.
Qed.

Lemma dry_run_skips_the_single_statement_operations_witness :
  dry_outcome 0 (initial (JBool true) tt)
    (Pg.addIndex connection_ok "t" "idx" (JStr "c")
       (JObj [("unique", JBool true)]) (JFun 0) (initial (JBool true) tt))
  /\ dry_outcome 0 (initial (JBool true) tt)
       (Mysql.removeIndex connection_ok [JStr "t"; JStr "idx"; JFun 0]
          (initial (JBool true) tt)).
Proof.
  pose proof (dry_run_skips_the_single_statement_operations connection_ok
                "t" "idx" "idx2" "2012-01-01 00:00:00" (JStr "c")
                [("unique", JBool true)] 0%nat (initial (JBool true) tt)
                eq_refl) as H.
  cbv zeta in H.
  split; [exact (proj1 (proj2 (proj2 (proj2 (proj2 H)))))
         | exact (proj1 (proj2 (proj2 (proj2 (proj2 (proj2 (proj2 (proj2
                    (proj2 (proj2 H))))))))))].
Defined.
